(** * Usability Testing Tool: the record store, the task timer and the report

    A shallow embedding of [project1.py].  The script is a Streamlit page:
    on every interaction the whole of [main] runs once, top to bottom, with
    the widgets returning their current values and at most one button
    returning [True].  Two pieces of state outlive a run: the CSV files under
    [data/] and [st.session_state].

    What is modelled and how:
    - the file system is a finite map from paths to files; a file is the list
      of its lines and a line the list of its cells.  The quoting that
      [DataFrame.to_csv] adds and [pandas.read_csv] removes is not modelled:
      a cell is taken to be read as the text that was written;
    - [st.session_state] is a finite map from keys to floats;
    - clock readings and durations are exact rationals.  Python computes with
      binary64 floats; the difference of two floats, once rounded, has the
      sign of the exact difference and is zero exactly when the readings are
      equal, so signs and zero tests agree with the exact model;
    - I/O failures are not modelled: every write succeeds.

    Three functions of Python and pandas that the script relies on are not
    part of it and are taken as parameters: the text of a float, the reading
    of a file that is not a regular table, and the mean of a column that is
    not made of integers.  The properties hold whatever these three do. *)

From Stdlib Require Import ZArith QArith Qround String List DecimalString DecimalZ.
From stdpp Require Import gmap strings list fin_maps.

Open Scope string_scope.
Open Scope list_scope.

(** ** Values, records and files *)

(** The values the script puts in the dictionaries it saves. *)
Inductive value : Type :=
  | VBool (b : bool)
  | VInt (n : Z)
  | VFloat (x : Q)
  | VStr (s : string).

(** A dictionary literal, in insertion order. *)
Definition record : Type := list (string * value).

Definition keys (d : record) : list string := map fst d.
Definition vals (d : record) : list value := map snd d.

(** A CSV file: its lines, each the list of its cells; the first is the header. *)
Abbreviation csv_lines := (list (list string)).

(** [str(n)] for a Python integer. *)
Definition int_repr (n : Z) : string := NilZero.string_of_int (Z.to_int n).

(** ** What [pandas.read_csv] returns *)

(** A cell of a loaded frame: missing, or the text that was read.  pandas goes
    on to infer a type for each column from these texts (int64, float64, bool,
    object); the frame below keeps the texts. *)
Inductive cell : Type :=
  | NaN
  | Text (s : string).

Record DataFrame : Type := mkDataFrame {
  columns : list string;
  rows : list (list cell)
}.

(** [pd.DataFrame()]. *)
Definition empty_frame : DataFrame := mkDataFrame [] [].

(** [df.empty]: some axis has length zero. *)
Definition empty (df : DataFrame) : bool :=
  match columns df, rows df with
  | [], _ => true
  | _, [] => true
  | _, _ => false
  end.

Inductive exn : Type :=
  | EmptyDataError
  | ParserError
  | KeyError
  | TypeError.

Inductive result (A : Type) : Type :=
  | Ok (a : A)
  | Raised (e : exn).

Arguments Ok {A} a.
Arguments Raised {A} e.

#[global] Instance result_bind : MBind result :=
  fun A B (k : A -> result B) (r : result A) =>
    match r with
    | Ok a => k a
    | Raised e => Raised e
    end.

(** The texts [read_csv] takes for a missing value unless told otherwise
    ([STR_NA_VALUES] of pandas 2). *)
Definition STR_NA_VALUES : list string :=
  [ ""; "#N/A"; "#N/A N/A"; "#NA"; "-1.#IND"; "-1.#QNAN"; "-NaN"; "-nan";
    "1.#IND"; "1.#QNAN"; "<NA>"; "N/A"; "NA"; "NULL"; "NaN"; "None"; "n/a";
    "nan"; "null" ].

Definition is_na (s : string) : bool :=
  existsb (String.eqb s) STR_NA_VALUES.

Definition parse_cell (s : string) : cell :=
  if is_na s then NaN else Text s.

Fixpoint distinct (l : list string) : bool :=
  match l with
  | [] => true
  | x :: l' => negb (existsb (String.eqb x) l') && distinct l'
  end.

(** A header [read_csv] takes as it is: two names or more, none empty, none
    repeated.  An empty name would be read as [Unnamed: i] and a repeated one
    renamed; and under a single name a line may be blank (a lone cell of
    spaces), which [read_csv] skips, while a line of two cells or more always
    holds a comma. *)
Definition header_ok (h : list string) : bool :=
  match h with
  | [] | [_] => false
  | _ => forallb (fun s => negb (String.eqb s "")) h && distinct h
  end.

(** A regular table: a good header and every line as wide as the header. *)
Definition regular (f : csv_lines) : bool :=
  match f with
  | [] => false
  | h :: ls => header_ok h && forallb (fun l => Nat.eqb (length l) (length h)) ls
  end.

(** An integer as [to_csv] writes it, within int64. *)
Definition as_int64 (s : string) : option Z :=
  match NilZero.int_of_string s with
  | Some d =>
      let n := Z.of_int d in
      if String.eqb (int_repr n) s && (- 2 ^ 63 <=? n)%Z && (n <? 2 ^ 63)%Z
      then Some n else None
  | None => None
  end.

(** The integers of a column, missing cells skipped; [None] when some cell
    holds anything else. *)
Fixpoint int64_values (col : list cell) : option (list Z) :=
  match col with
  | [] => Some []
  | NaN :: col' => int64_values col'
  | Text s :: col' =>
      match as_int64 s, int64_values col' with
      | Some n, Some ns => Some (n :: ns)
      | _, _ => None
      end
  end.

Definition sum_Z (ns : list Z) : Z := fold_right Z.add 0%Z ns.

(** Sum over count, as an exact rational. *)
Definition mean_of (ns : list Z) : Q := sum_Z ns # Pos.of_nat (length ns).

(** [df[name]]. *)
Fixpoint index_of (name : string) (cols : list string) : option nat :=
  match cols with
  | [] => None
  | c :: cols' =>
      if String.eqb c name then Some 0 else option_map S (index_of name cols')
  end.

Definition getitem (df : DataFrame) (name : string) : result (list cell) :=
  match index_of name (columns df) with
  | Some i => Ok (map (fun r => nth i r NaN) (rows df))
  | None => Raised KeyError
  end.

(** ** Session state and the outcome of a run *)

(** What a run shows besides the widgets ([st.warning], [st.success]). *)
Inductive message : Type :=
  | ConsentWarning
  | ConsentRecorded
  | DemographicSaved
  | TimerStarted
  | DurationRecorded (duration : Q)
  | TaskSaved
  | ExitSaved.

Record state : Type := mkState {
  files : gmap string csv_lines;
  session_state : gmap string Q
}.

(** A dataset as the report shows it: [st.dataframe] or [st.info]. *)
Inductive view : Type :=
  | Dataframe (df : DataFrame)
  | NoData.

(** The report tab: the four datasets and, when shown, the two averages
    ([None] inside stands for the float NaN). *)
Record report : Type := mkReport {
  consent_view : view;
  demographic_view : view;
  task_view : view;
  exit_view : view;
  averages : option (option Q * option Q)
}.

(** The values of the widgets in one run. *)
Record widgets : Type := mkWidgets {
  consent_given : bool;
  submit_consent : bool;
  name : string;
  age : Z;
  occupation : string;
  familiarity : string;
  submitted : bool;
  selected_task : string;
  start_pressed : bool;
  stop_pressed : bool;
  success : string;
  notes : string;
  save_pressed : bool;
  satisfaction : Z;
  difficulty : Z;
  open_feedback : string;
  submitted_exit : bool
}.

(** What the clock returns at each call site of one run: [time.strftime] in
    the four tabs, [time.time()] under the start and the stop button. *)
Record clock : Type := mkClock {
  strftime_consent : string;
  strftime_demographics : string;
  strftime_task : string;
  strftime_exit : string;
  time_start : Q;
  time_stop : Q
}.

(** What the widgets guarantee: [st.number_input] with bounds 10 and 100,
    [st.slider] from 1 to 5. *)
Definition widgets_in_range (w : widgets) : Prop :=
  (10 <= age w <= 100)%Z /\
  (1 <= satisfaction w <= 5)%Z /\
  (1 <= difficulty w <= 5)%Z.

Definition CONSENT_CSV : string := "data/consent_data.csv".
Definition DEMOGRAPHIC_CSV : string := "data/demographic_data.csv".
Definition TASK_CSV : string := "data/task_data.csv".
Definition EXIT_CSV : string := "data/exit_data.csv".

(** Python's truth value of [duration_val]: [None] and [0.0] are false. *)
Definition truthy (duration_val : option Q) : bool :=
  match duration_val with
  | Some d => negb (Qeq_bool d 0)
  | None => false
  end.

(** ** The task timer (Task tab) *)

(** [if st.button("Start Task Timer")]: the body. *)
Definition start_timer (now : Q) (ss : gmap string Q) : gmap string Q :=
  <["start_time" := now]> ss.

(** [if st.button("Stop Task Timer") and "start_time" in st.session_state]:
    the test on the session state and the body. *)
Definition stop_timer (now : Q) (ss : gmap string Q)
  : gmap string Q * list message :=
  match ss !! "start_time" with
  | Some started =>
      let duration := (now - started)%Q in
      (<["task_duration" := duration]> ss, [DurationRecorded duration])
  | None => (ss, [])
  end.

(** The [duration_seconds] entry of the saved record:
    [duration_val if duration_val else ""]. *)
Definition duration_field (ss : gmap string Q) : value :=
  let duration_val := ss !! "task_duration" in
  match duration_val with
  | Some d => if truthy duration_val then VFloat d else VStr ""
  | None => VStr ""
  end.

Definition task_record (ts task outcome observer_notes : string)
    (ss : gmap string Q) : record :=
  [ ("timestamp", VStr ts);
    ("task_name", VStr task);
    ("success", VStr outcome);
    ("duration_seconds", duration_field ss);
    ("notes", VStr observer_notes) ].

(** The two [pop]s that end the Save Task Results handler. *)
Definition clear_timer (ss : gmap string Q) : gmap string Q :=
  delete "task_duration" (delete "start_time" ss).

(** ** The four datasets *)

Definition consent_header : list string := ["timestamp"; "consent_given"].
Definition demographic_header : list string :=
  ["timestamp"; "name"; "age"; "occupation"; "familiarity"].
Definition task_header : list string :=
  ["timestamp"; "task_name"; "success"; "duration_seconds"; "notes"].
Definition exit_header : list string :=
  ["timestamp"; "satisfaction"; "difficulty"; "open_feedback"].

(** The runs in which the Exit form is submitted, and the line each adds to
    the Exit file. *)
Definition exit_submissions (inputs : list (widgets * clock))
  : list (widgets * clock) :=
  filter (fun wc => submitted_exit wc.1 = true) inputs.

Definition exit_line (wc : widgets * clock) : list string :=
  [ strftime_exit wc.2; int_repr (satisfaction wc.1);
    int_repr (difficulty wc.1); open_feedback wc.1 ].

Definition satisfactions (subs : list (widgets * clock)) : list Z :=
  map (fun wc => satisfaction wc.1) subs.

Definition difficulties (subs : list (widgets * clock)) : list Z :=
  map (fun wc => difficulty wc.1) subs.

(** A file, if there is one, is a table under the header [h]. *)
Definition table_of (h : list string) (f : option csv_lines) : Prop :=
  f = None \/
  exists ls, f = Some (h :: ls) /\ Forall (fun l => length l = length h) ls.

(** Every dataset file that exists was written by the script. *)
Definition written_by_the_script (fs : gmap string csv_lines) : Prop :=
  table_of consent_header (fs !! CONSENT_CSV) /\
  table_of demographic_header (fs !! DEMOGRAPHIC_CSV) /\
  table_of task_header (fs !! TASK_CSV) /\
  table_of exit_header (fs !! EXIT_CSV).

(** The state of a study that has not started: none of the four files. *)
Definition no_dataset_yet (fs : gmap string csv_lines) : Prop :=
  fs !! CONSENT_CSV = None /\ fs !! DEMOGRAPHIC_CSV = None /\
  fs !! TASK_CSV = None /\ fs !! EXIT_CSV = None.

(** A content of the Exit file after the lines [ls] were added to [cur]. *)
Definition exit_file_after (cur : option csv_lines) (ls : csv_lines)
  : option csv_lines :=
  match ls with
  | [] => cur
  | _ => Some (match cur with
               | None => exit_header :: ls
               | Some old => old ++ ls
               end)
  end.

(** ** Instances of the parameters for the worked examples *)

(** [repr] of a float with an integral value (below 1e16): [5.0]. *)
Definition repr_whole (x : Q) : string :=
  (int_repr (Qfloor x) ++ ".0")%string.

(** A reader that rejects every file that is not a regular table. *)
Definition reject_irregular (f : csv_lines) : result DataFrame :=
  match f with
  | [] => Raised EmptyDataError
  | _ => Raised ParserError
  end.

(** A mean that rejects every column that is not made of integers. *)
Definition reject_other (col : list cell) : result (option Q) :=
  Raised TypeError.

(** Widget values for the worked examples, one button or form at a time. *)
Definition consent_click (given : bool) : widgets :=
  mkWidgets given true "" 10 "" "Not familiar" false "Task 1: Example Task"
    false false "Yes" "" false 1 1 "" false.

Definition start_click : widgets :=
  mkWidgets false false "" 10 "" "Not familiar" false "Task 1: Example Task"
    true false "Yes" "" false 1 1 "" false.


Definition slider_moved : widgets :=
  mkWidgets true false "Ada" 36 "Engineer" "Very familiar" false
    "Task 1: Example Task" false false "No" "stuck on step 2" false 4 2
    "too many steps" false.

Definition stop_click : widgets :=
  mkWidgets false false "" 10 "" "Not familiar" false "Task 1: Example Task"
    false true "Yes" "" false 1 1 "" false.

Definition save_click : widgets :=
  mkWidgets false false "" 10 "" "Not familiar" false "Task 1: Example Task"
    false false "Yes" "" true 1 1 "" false.

Definition exit_submission (s d : Z) (feedback : string) : widgets :=
  mkWidgets false false "" 10 "" "Not familiar" false "Task 1: Example Task"
    false false "Yes" "" false s d feedback true.

Definition sample_clock : clock :=
  mkClock "2024-05-01 10:00:00" "2024-05-01 10:01:00" "2024-05-01 10:02:00"
    "2024-05-01 10:03:00" 100 130.

(** A run whose two clock readings are [t0] and [t1]. *)
Definition clock_at (t0 t1 : Q) : clock :=
  mkClock "2024-05-01 10:10:00" "2024-05-01 10:11:00" "2024-05-01 10:12:00"
    "2024-05-01 10:13:00" t0 t1.

(** Start, Stop and Save, then Start and Stop again, on a clock that moves
    forward. *)
Definition timed_session : list (widgets * clock) :=
  [ (start_click, clock_at 100 101); (stop_click, clock_at 129 130);
    (save_click, clock_at 140 141); (start_click, clock_at 200 201);
    (stop_click, clock_at 211 212) ].

(** Two runs, each an Exit submission: 3, 2 and then 5, 4. *)
Definition two_exit_submissions : list (widgets * clock) :=
  [ (exit_submission 3 2 "", sample_clock);
    (exit_submission 5 4 "fine", sample_clock) ].

Section Script.

(** [repr] of a Python float, the text [to_csv] writes for it. *)
Variable float_repr : Q -> string.

(** [pandas.read_csv] on a file that is not a regular table (no line at all,
    a single column, an empty or repeated column name, a line wider or
    narrower than the header). *)
Variable read_irregular : csv_lines -> result DataFrame.

(** [Series.mean] on a column that holds anything but integers and missing
    cells (floats, booleans, free text). *)
Variable mean_other : list cell -> result (option Q).

(** ** The record store *)

(** The text [to_csv] writes for a value. *)
Definition to_text (v : value) : string :=
  match v with
  | VBool true => "True"
  | VBool false => "False"
  | VInt n => int_repr n
  | VFloat x => float_repr x
  | VStr s => s
  end.

(** The data line of the one-row frame [pd.DataFrame([data_dict])]. *)
Definition to_csv_row (data_dict : record) : list string :=
  map to_text (vals data_dict).

(** Utility: save data to CSV.  With no file at the path, [to_csv] in mode
    [w] with the header; else in mode [a] without it. *)
Definition save_to_csv (data_dict : record) (csv_file : string)
    (fs : gmap string csv_lines) : gmap string csv_lines :=
  match fs !! csv_file with
  | None => <[csv_file := [keys data_dict; to_csv_row data_dict]]> fs
  | Some old => <[csv_file := old ++ [to_csv_row data_dict]]> fs
  end.

(** [pd.read_csv] with its defaults: the first line names the columns, and a
    cell that holds one of the missing-value texts is read as NaN. *)
Definition read_csv (f : csv_lines) : result DataFrame :=
  match f with
  | h :: ls =>
      if regular f then Ok (mkDataFrame h (map (map parse_cell) ls))
      else read_irregular f
  | [] => read_irregular f
  end.

(** Utility: load data from CSV. *)
Definition load_from_csv (csv_file : string) (fs : gmap string csv_lines)
  : result DataFrame :=
  match fs !! csv_file with
  | Some f => read_csv f
  | None => Ok empty_frame
  end.

(** [N] calls of [save_to_csv] on one file, in order. *)
Definition append_all (csv_file : string) (ds : list record)
    (fs : gmap string csv_lines) : gmap string csv_lines :=
  fold_left (fun fs' d => save_to_csv d csv_file fs') ds fs.


(** [Series.mean]: missing cells are skipped; no number at all gives NaN
    ([None]). *)
Definition mean (col : list cell) : result (option Q) :=
  match int64_values col with
  | Some [] => Ok None
  | Some ns => Ok (Some (mean_of ns))
  | None => mean_other col
  end.

(** ** The tabs of [main] *)

Definition consent_record (ts : string) (given : bool) : record :=
  [ ("timestamp", VStr ts); ("consent_given", VBool given) ].

Definition consent_tab (w : widgets) (c : clock) (fs : gmap string csv_lines)
  : gmap string csv_lines * list message :=
  if submit_consent w then
    if negb (consent_given w) then (fs, [ConsentWarning])
    else (save_to_csv (consent_record (strftime_consent c) (consent_given w))
            CONSENT_CSV fs,
          [ConsentRecorded])
  else (fs, []).

Definition demographic_record (ts : string) (w : widgets) : record :=
  [ ("timestamp", VStr ts);
    ("name", VStr (name w));
    ("age", VInt (age w));
    ("occupation", VStr (occupation w));
    ("familiarity", VStr (familiarity w)) ].

Definition demographics_tab (w : widgets) (c : clock)
    (fs : gmap string csv_lines) : gmap string csv_lines * list message :=
  if submitted w then
    (save_to_csv (demographic_record (strftime_demographics c) w)
       DEMOGRAPHIC_CSV fs,
     [DemographicSaved])
  else (fs, []).

(** [if st.button("Save Task Results")]: the body. *)
Definition save_task_results (w : widgets) (c : clock) (st : state)
  : state * list message :=
  (mkState
     (save_to_csv
        (task_record (strftime_task c) (selected_task w) (success w) (notes w)
           (session_state st))
        TASK_CSV (files st))
     (clear_timer (session_state st)),
   [TaskSaved]).

Definition tasks_tab (w : widgets) (c : clock) (st : state)
  : state * list message :=
  let '(ss1, m1) :=
    if start_pressed w
    then (start_timer (time_start c) (session_state st), [TimerStarted])
    else (session_state st, []) in
  let '(ss2, m2) :=
    if stop_pressed w then stop_timer (time_stop c) ss1 else (ss1, []) in
  let '(st3, m3) :=
    if save_pressed w then save_task_results w c (mkState (files st) ss2)
    else (mkState (files st) ss2, []) in
  (st3, m1 ++ m2 ++ m3).

Definition exit_record (ts : string) (w : widgets) : record :=
  [ ("timestamp", VStr ts);
    ("satisfaction", VInt (satisfaction w));
    ("difficulty", VInt (difficulty w));
    ("open_feedback", VStr (open_feedback w)) ].

Definition exit_tab (w : widgets) (c : clock) (fs : gmap string csv_lines)
  : gmap string csv_lines * list message :=
  if submitted_exit w then
    (save_to_csv (exit_record (strftime_exit c) w) EXIT_CSV fs, [ExitSaved])
  else (fs, []).

(** [st.dataframe(df)] when the frame is not empty, [st.info] otherwise. *)
Definition show (df : DataFrame) : view :=
  if negb (empty df) then Dataframe df else NoData.

(** The averages under the Exit table. *)
Definition exit_averages (exit_df : DataFrame)
  : result (option (option Q * option Q)) :=
  if negb (empty exit_df) then
    sat ← getitem exit_df "satisfaction";
    avg_satisfaction ← mean sat;
    dif ← getitem exit_df "difficulty";
    avg_difficulty ← mean dif;
    Ok (Some (avg_satisfaction, avg_difficulty))
  else Ok None.

Definition report_tab (fs : gmap string csv_lines) : result report :=
  consent_df ← load_from_csv CONSENT_CSV fs;
  demographic_df ← load_from_csv DEMOGRAPHIC_CSV fs;
  task_df ← load_from_csv TASK_CSV fs;
  exit_df ← load_from_csv EXIT_CSV fs;
  avgs ← exit_averages exit_df;
  Ok (mkReport (show consent_df) (show demographic_df) (show task_df)
        (show exit_df) avgs).

(** The four input tabs of one run, in the order of the script: the state
    they leave and what they show. *)
Definition input_tabs (w : widgets) (c : clock) (st : state)
  : state * list message :=
  let '(fs1, m1) := consent_tab w c (files st) in
  let '(fs2, m2) := demographics_tab w c fs1 in
  let '(st3, m3) := tasks_tab w c (mkState fs2 (session_state st)) in
  let '(fs4, m4) := exit_tab w c (files st3) in
  (mkState fs4 (session_state st3), m1 ++ m2 ++ m3 ++ m4).

(** One run of the script: the state it leaves, what it shows, and the
    report, or the exception that ends the run in the report tab. *)
Definition main (w : widgets) (c : clock) (st : state)
  : state * list message * result report :=
  let '(st', ms) := input_tabs w c st in
  (st', ms, report_tab (files st')).

(** The state after a run, and after a series of runs. *)
Definition step (st : state) (wc : widgets * clock) : state :=
  (input_tabs wc.1 wc.2 st).1.

Definition session (inputs : list (widgets * clock)) (st : state) : state :=
  fold_left step inputs st.

(** [save_to_csv] under a test, the shape of every input tab. *)
Definition save_if (b : bool) (d : record) (p : string)
    (fs : gmap string csv_lines) : gmap string csv_lines :=
  if b then save_to_csv d p fs else fs.

(** The session state that Save Task Results finds: after the Start and the
    Stop button of the same run. *)
Definition timer_before_save (w : widgets) (c : clock) (ss : gmap string Q)
  : gmap string Q :=
  let ss1 := if start_pressed w then start_timer (time_start c) ss else ss in
  if stop_pressed w then (stop_timer (time_stop c) ss1).1 else ss1.

(** A run in which no button or form of the four input tabs is submitted
    except the one named. *)
Definition only_consent_submitted (w : widgets) : Prop :=
  submit_consent w = true /\ submitted w = false /\ start_pressed w = false /\
  stop_pressed w = false /\ save_pressed w = false /\ submitted_exit w = false.

Definition only_stop_pressed (w : widgets) : Prop :=
  submit_consent w = false /\ submitted w = false /\ start_pressed w = false /\
  stop_pressed w = true /\ save_pressed w = false /\ submitted_exit w = false.

Definition only_save_pressed (w : widgets) : Prop :=
  submit_consent w = false /\ submitted w = false /\ start_pressed w = false /\
  stop_pressed w = false /\ save_pressed w = true /\ submitted_exit w = false.

(** ** Predicates on runs, session states and files *)

(** A run in which no button is pressed and no form submitted. *)
Definition nothing_pressed (w : widgets) : Prop :=
  submit_consent w = false /\ submitted w = false /\ start_pressed w = false /\
  stop_pressed w = false /\ save_pressed w = false /\ submitted_exit w = false.

(** The session state holds the two timer keys at most, and a duration only
    beside a start time. *)
Definition timer_consistent (ss : gmap string Q) : Prop :=
  (forall k, is_Some (ss !! k) -> k = "start_time" \/ k = "task_duration") /\
  (is_Some (ss !! "task_duration") -> is_Some (ss !! "start_time")).

(** The clock never goes back: from the reading [t] on, through the start
    and the stop reading of every run. *)
Fixpoint clock_monotone (t : Q) (inputs : list (widgets * clock)) : Prop :=
  match inputs with
  | [] => True
  | wc :: rest =>
      (t <= time_start wc.2)%Q /\ (time_start wc.2 <= time_stop wc.2)%Q /\
      clock_monotone (time_stop wc.2) rest
  end.

(** A start time, if set, is not after [t]; a stored duration is not
    negative. *)
Definition timer_within (t : Q) (ss : gmap string Q) : Prop :=
  (forall s, ss !! "start_time" = Some s -> (s <= t)%Q) /\
  (forall d, ss !! "task_duration" = Some d -> (0 <= d)%Q).

(** The duration cell of a line of the Task file is empty or holds a
    positive number. *)
Definition duration_cell_ok (l : list string) : Prop :=
  nth 3 l "" = "" \/ exists d, (0 < d)%Q /\ nth 3 l "" = float_repr d.


Definition consent_accepted (w : widgets) : bool :=
  submit_consent w && consent_given w.




Definition demographic_line (wc : widgets * clock) : list string :=
  [ strftime_demographics wc.2; name wc.1; int_repr (age wc.1);
    occupation wc.1; familiarity wc.1 ].

(** The runs in which the Consent form is submitted with the box ticked, and
    the line each adds to the Consent file. *)
Definition consent_submissions (inputs : list (widgets * clock))
  : list (widgets * clock) :=
  filter (fun wc => consent_accepted wc.1 = true) inputs.

Definition consent_line (wc : widgets * clock) : list string :=
  [ strftime_consent wc.2; "True" ].

(** ** Integers as text *)

Lemma to_int_not_nil (n : Z) :
  Z.to_int n <> Decimal.Pos Decimal.Nil /\ Z.to_int n <> Decimal.Neg Decimal.Nil.
Proof.
  split; intros H; pose proof (f_equal Z.of_int H) as H';
    rewrite DecimalZ.of_to in H'; simpl in H'; subst n; discriminate H.
Qed.

Lemma int_of_string_int_repr (n : Z) :
  NilZero.int_of_string (int_repr n) = Some (Z.to_int n).
Proof.
  unfold int_repr. destruct (to_int_not_nil n). now apply NilZero.isi.
Qed.

Lemma is_na_not_an_integer (s : string) :
  is_na s = true -> NilZero.int_of_string s = None.
Proof.
  unfold is_na, STR_NA_VALUES. intros H. apply existsb_exists in H.
  destruct H as [m [Hin Heq]]. apply String.eqb_eq in Heq. subst m.
  repeat (destruct Hin as [<-|Hin]; [reflexivity|]). destruct Hin.
Qed.

Lemma is_na_int_repr (n : Z) : is_na (int_repr n) = false.
Proof.
  destruct (is_na (int_repr n)) eqn:E; [|reflexivity].
  apply is_na_not_an_integer in E. rewrite int_of_string_int_repr in E.
  discriminate.
Qed.

Lemma as_int64_int_repr (n : Z) :
  (- 2 ^ 63 <= n < 2 ^ 63)%Z -> as_int64 (int_repr n) = Some n.
Proof.
  intros [Hlo Hhi]. unfold as_int64.
  rewrite int_of_string_int_repr. cbv zeta. rewrite DecimalZ.of_to.
  rewrite String.eqb_refl.
  apply Z.leb_le in Hlo. apply Z.ltb_lt in Hhi. now rewrite Hlo, Hhi.
Qed.

(** ** Properties of the record store *)

Lemma save_to_csv_fresh (d : record) (p : string) (fs : gmap string csv_lines) :
  fs !! p = None ->
  save_to_csv d p fs = <[p := [keys d; to_csv_row d]]> fs.
Proof. intros H. unfold save_to_csv. now rewrite H. Qed.

Lemma save_to_csv_existing (d : record) (p : string)
    (fs : gmap string csv_lines) (old : csv_lines) :
  fs !! p = Some old ->
  save_to_csv d p fs = <[p := old ++ [to_csv_row d]]> fs.
Proof. intros H. unfold save_to_csv. now rewrite H. Qed.

Lemma save_to_csv_lookup_ne (d : record) (p q : string)
    (fs : gmap string csv_lines) :
  p <> q -> save_to_csv d p fs !! q = fs !! q.
Proof.
  intros Hpq. unfold save_to_csv.
  destruct (fs !! p); now rewrite lookup_insert_ne.
Qed.

Lemma append_all_existing (p : string) (ds : list record) :
  forall (fs : gmap string csv_lines) (old : csv_lines),
    fs !! p = Some old ->
    append_all p ds fs !! p = Some (old ++ map to_csv_row ds).
Proof.
  induction ds as [|d ds IH]; intros fs old Hold; simpl.
  - now rewrite app_nil_r.
  - unfold append_all in *. simpl.
    rewrite (IH _ (old ++ [to_csv_row d])).
    + now rewrite <- app_assoc.
    + rewrite (save_to_csv_existing _ _ _ _ Hold). apply lookup_insert_eq.
Qed.


Lemma append_all_lookup_ne (p q : string) (ds : list record) :
  forall fs : gmap string csv_lines,
    p <> q -> append_all p ds fs !! q = fs !! q.
Proof.
  induction ds as [|d ds IH]; intros fs Hpq; [reflexivity|].
  unfold append_all in *. simpl. rewrite IH by assumption.
  now apply save_to_csv_lookup_ne.
Qed.

Lemma length_to_csv_row (d : record) :
  length (to_csv_row d) = length (keys d).
Proof. unfold to_csv_row, vals, keys. rewrite !length_map. reflexivity. Qed.

Lemma regular_table (h : list string) (ls : csv_lines) :
  header_ok h = true ->
  Forall (fun l => length l = length h) ls ->
  regular (h :: ls) = true.
Proof.
  intros Hh Hls. simpl. rewrite Hh. simpl.
  apply forallb_forall. intros l Hl.
  rewrite List.Forall_forall in Hls. apply Nat.eqb_eq. now apply Hls.
Qed.

Lemma read_csv_regular (h : list string) (ls : csv_lines) :
  regular (h :: ls) = true ->
  read_csv (h :: ls) = Ok (mkDataFrame h (map (map parse_cell) ls)).
Proof. intros H. unfold read_csv. now rewrite H. Qed.





(** C2.  [save_to_csv] on a path with no file creates the file with two
    lines, the field names and then the values; on a path with a file it adds
    one line, the values, whatever the field names of the record and the
    header of the file are.  No other file changes. *)
Theorem save_to_csv_creates_or_appends (data_dict : record)
    (csv_file : string) (fs : gmap string csv_lines) :
  (fs !! csv_file = None ->
     save_to_csv data_dict csv_file fs !! csv_file
     = Some [keys data_dict; to_csv_row data_dict]) /\
  (forall old, fs !! csv_file = Some old ->
     save_to_csv data_dict csv_file fs !! csv_file
     = Some (old ++ [to_csv_row data_dict])) /\
  (forall other, other <> csv_file ->
     save_to_csv data_dict csv_file fs !! other = fs !! other).
Proof.
  split; [|split].
  - intros H. rewrite (save_to_csv_fresh _ _ _ H). apply lookup_insert_eq.
  - intros old H. rewrite (save_to_csv_existing _ _ _ _ H). apply lookup_insert_eq.
  - intros other H. apply save_to_csv_lookup_ne. congruence.
Qed.

(** C7.  [load_from_csv] on a path with no file returns the empty frame
    [pd.DataFrame()]; it raises nothing. *)
Theorem load_from_csv_missing (csv_file : string) (fs : gmap string csv_lines) :
  fs !! csv_file = None ->
  load_from_csv csv_file fs = Ok empty_frame /\
  empty empty_frame = true /\
  rows empty_frame = [].
Proof.
  intros H. unfold load_from_csv. rewrite H. repeat split.
Qed.

(** ** Properties of the task timer *)

Lemma input_tabs_stop_only (w : widgets) (c : clock) (st : state) :
  only_stop_pressed w ->
  input_tabs w c st
  = (mkState (files st) (stop_timer (time_stop c) (session_state st)).1,
     (stop_timer (time_stop c) (session_state st)).2).
Proof.
  intros (Hc & Hd & Hs & Hp & Hv & He).
  unfold input_tabs, consent_tab, demographics_tab, tasks_tab, exit_tab.
  rewrite Hc, Hd, Hs, Hp, Hv. cbn.
  destruct (stop_timer (time_stop c) (session_state st)) as [ss ms]. cbn.
  rewrite He. now rewrite !app_nil_r.
Qed.

Lemma input_tabs_save_only (w : widgets) (c : clock) (st : state) :
  only_save_pressed w ->
  input_tabs w c st = save_task_results w c st.
Proof.
  intros (Hc & Hd & Hs & Hp & Hv & He).
  unfold input_tabs, consent_tab, demographics_tab, tasks_tab, exit_tab.
  rewrite Hc, Hd, Hs, Hp, Hv. cbn. rewrite He. now destruct st.
Qed.

Lemma truthy_zero (d : Q) : (d == 0)%Q -> truthy (Some d) = false.
Proof.
  intros H. unfold truthy. apply Qeq_bool_iff in H. now rewrite H.
Qed.

Lemma truthy_nonzero (d : Q) : ~ (d == 0)%Q -> truthy (Some d) = true.
Proof.
  intros H. unfold truthy. destruct (Qeq_bool d 0) eqn:E; [|reflexivity].
  apply Qeq_bool_iff in E. contradiction.
Qed.

(** C3 (as amended).  Stop while [start_time] is set computes
    [now - start_time], stores it as [task_duration] and announces it; it
    leaves [start_time] set, so the timer is still running and a further Stop
    measures again from the same start.  Stop while [start_time] is not set
    changes nothing and announces nothing.  A run in which only Stop is
    pressed does exactly this and touches no file. *)
Theorem stop_timer_records_and_keeps_start_time (now : Q)
    (ss : gmap string Q) :
  (forall started, ss !! "start_time" = Some started ->
     stop_timer now ss
     = (<["task_duration" := (now - started)%Q]> ss,
        [DurationRecorded (now - started)]) /\
     (stop_timer now ss).1 !! "task_duration" = Some (now - started)%Q /\
     (stop_timer now ss).1 !! "start_time" = Some started) /\
  (ss !! "start_time" = None -> stop_timer now ss = (ss, [])) /\
  (forall w c st, only_stop_pressed w ->
     time_stop c = now -> session_state st = ss ->
     input_tabs w c st = (mkState (files st) (stop_timer now ss).1,
                          (stop_timer now ss).2)).
Proof.
  split; [|split].
  - intros started H. unfold stop_timer. rewrite H. cbn.
    split; [reflexivity|]. split; [apply lookup_insert_eq|].
    rewrite lookup_insert_ne by discriminate. exact H.
  - intros H. unfold stop_timer. now rewrite H.
  - intros w c st Hw <- <-. now apply input_tabs_stop_only.
Qed.

(** C4 (the code at the failing input).  Start and Stop handled at the same
    clock reading [t]: Stop stores the duration [t - t], which is zero, and
    announces it as recorded; Save Task Results then writes the empty
    placeholder for it, although [task_duration] is present.  Both keys are
    cleared. *)
Theorem zero_duration_is_recorded_then_dropped (t : Q) (w : widgets)
    (c : clock) (fs : gmap string csv_lines) :
  let ss := (stop_timer t (start_timer t ∅)).1 in
  (stop_timer t (start_timer t ∅)).2 = [DurationRecorded (t - t)] /\
  ss !! "task_duration" = Some (t - t)%Q /\
  duration_field ss = VStr "" /\
  session_state (save_task_results w c (mkState fs ss)).1 !! "task_duration"
  = None /\
  session_state (save_task_results w c (mkState fs ss)).1 !! "start_time"
  = None.
Proof.
  cbv zeta. unfold start_timer, stop_timer. rewrite lookup_insert_eq. cbn.
  split; [reflexivity|]. split; [apply lookup_insert_eq|].
  split.
  - unfold duration_field. rewrite lookup_insert_eq.
    rewrite truthy_zero; [reflexivity|]. unfold Qminus. apply Qplus_opp_r.
  - unfold clear_timer. split.
    + apply lookup_delete_eq.
    + rewrite lookup_delete_ne by discriminate. apply lookup_delete_eq.
Qed.

(** C4, the part the code keeps.  Save Task Results writes the stored
    duration when it is present and not zero, the empty placeholder when it
    is absent, and clears [start_time] and [task_duration] in every case. *)
Lemma save_task_results_consumes_the_duration (w : widgets) (c : clock)
    (st : state) :
  (forall d, session_state st !! "task_duration" = Some d -> ~ (d == 0)%Q ->
     duration_field (session_state st) = VFloat d) /\
  (session_state st !! "task_duration" = None ->
     duration_field (session_state st) = VStr "") /\
  session_state (save_task_results w c st).1 !! "task_duration" = None /\
  session_state (save_task_results w c st).1 !! "start_time" = None.
Proof.
  unfold duration_field. repeat split.
  - intros d H Hd. rewrite H. now rewrite truthy_nonzero.
  - intros H. now rewrite H.
  - apply lookup_delete_eq.
  - cbn. unfold clear_timer. rewrite lookup_delete_ne by discriminate.
    apply lookup_delete_eq.
Qed.

(** C8 (as amended).  Start at clock reading [t0] then Stop at reading [t1]
    stores the duration [t1 - t0].  It is not negative when the clock did not
    go back between the two readings, and negative when it did: the readings
    come from [time.time()], the wall clock, and nothing orders them. *)
Theorem elapsed_has_the_sign_of_the_clock_difference (t0 t1 : Q)
    (ss : gmap string Q) :
  (stop_timer t1 (start_timer t0 ss)).1 !! "task_duration"
  = Some (t1 - t0)%Q /\
  ((t0 <= t1)%Q -> (0 <= t1 - t0)%Q) /\
  ((t1 < t0)%Q -> (t1 - t0 < 0)%Q).
Proof.
  split; [|split].
  - unfold stop_timer, start_timer. rewrite lookup_insert_eq. cbn.
    apply lookup_insert_eq.
  - intros H. unfold Qminus. now apply (proj1 (Qle_minus_iff t0 t1)).
  - intros H. apply (Qplus_lt_l _ _ t0). ring_simplify. exact H.
Qed.

(** C9.  When Save Task Results finds [task_duration] absent, or present and
    equal to zero, the record it saves has the empty string under
    [duration_seconds], and so has the line added to the Task file; a duration
    that is not zero is saved as the number.  The handler tests the truth
    value of the duration, which is false for [0.0]. *)
Theorem zero_or_missing_duration_is_saved_empty (w : widgets) (c : clock)
    (st : state) :
  session_state st !! "task_duration" = None \/
  (exists d, session_state st !! "task_duration" = Some d /\ (d == 0)%Q) ->
  let line :=
    [strftime_task c; selected_task w; success w; ""; notes w] in
  task_record (strftime_task c) (selected_task w) (success w) (notes w)
    (session_state st)
  = [ ("timestamp", VStr (strftime_task c));
      ("task_name", VStr (selected_task w));
      ("success", VStr (success w));
      ("duration_seconds", VStr "");
      ("notes", VStr (notes w)) ] /\
  (files st !! TASK_CSV = None ->
     files (save_task_results w c st).1 !! TASK_CSV
     = Some [ ["timestamp"; "task_name"; "success"; "duration_seconds"; "notes"];
              line ]) /\
  (forall old, files st !! TASK_CSV = Some old ->
     files (save_task_results w c st).1 !! TASK_CSV = Some (old ++ [line])) /\
  (only_save_pressed w -> input_tabs w c st = save_task_results w c st).
Proof.
  intros H. cbv zeta.
  assert (Hf : duration_field (session_state st) = VStr "").
  { unfold duration_field. destruct H as [H|[d [H Hd]]]; rewrite H.
    - reflexivity.
    - now rewrite truthy_zero. }
  unfold task_record. rewrite Hf. split; [reflexivity|].
  split; [|split].
  - intros Hnone. cbn. rewrite (save_to_csv_fresh _ _ _ Hnone).
    rewrite lookup_insert_eq. unfold to_csv_row, task_record. now rewrite Hf.
  - intros old Hold. cbn. rewrite (save_to_csv_existing _ _ _ _ Hold).
    rewrite lookup_insert_eq. unfold to_csv_row, task_record. now rewrite Hf.
  - apply input_tabs_save_only.
Qed.

(** ** Properties of the input tabs *)

Lemma files_input_tabs (w : widgets) (c : clock) (st : state) :
  files (input_tabs w c st).1
  = save_if (submitted_exit w) (exit_record (strftime_exit c) w) EXIT_CSV
      (save_if (save_pressed w)
         (task_record (strftime_task c) (selected_task w) (success w)
            (notes w) (timer_before_save w c (session_state st)))
         TASK_CSV
         (save_if (submitted w)
            (demographic_record (strftime_demographics c) w) DEMOGRAPHIC_CSV
            (save_if (submit_consent w && consent_given w)
               (consent_record (strftime_consent c) (consent_given w))
               CONSENT_CSV (files st)))).
Proof.
  unfold input_tabs, consent_tab, demographics_tab, tasks_tab, exit_tab,
    timer_before_save, save_task_results, save_if.
  destruct (submit_consent w), (consent_given w), (submitted w),
    (start_pressed w), (stop_pressed w);
    cbn -[stop_timer start_timer save_to_csv];
    try match goal with
        | |- context [stop_timer ?t ?ss] => destruct (stop_timer t ss)
        end;
    destruct (save_pressed w), (submitted_exit w); reflexivity.
Qed.

Lemma input_tabs_consent_only (w : widgets) (c : clock) (st : state) :
  only_consent_submitted w ->
  input_tabs w c st
  = (mkState (consent_tab w c (files st)).1 (session_state st),
     (consent_tab w c (files st)).2).
Proof.
  intros (Hc & Hd & Hs & Hp & Hv & He).
  unfold input_tabs, demographics_tab, tasks_tab, exit_tab.
  destruct (consent_tab w c (files st)) as [fs1 m1].
  rewrite Hd, Hs, Hp, Hv. cbn. rewrite He. now rewrite !app_nil_r.
Qed.

(** C6.  In a run where the Consent button is the one pressed: without the
    box ticked the run changes no file and nothing of the session, and shows
    the warning; with the box ticked it adds exactly one line to the Consent
    file, holding the timestamp and [True] under [consent_given] (creating the
    file, header first, when there was none), and changes no other file. *)
Theorem consent_is_saved_only_when_affirmed (w : widgets) (c : clock)
    (st : state) :
  only_consent_submitted w ->
  (consent_given w = false -> input_tabs w c st = (st, [ConsentWarning])) /\
  (consent_given w = true ->
     (input_tabs w c st).2 = [ConsentRecorded] /\
     session_state (input_tabs w c st).1 = session_state st /\
     files (input_tabs w c st).1
     = save_to_csv [ ("timestamp", VStr (strftime_consent c));
                     ("consent_given", VBool true) ] CONSENT_CSV (files st) /\
     (files st !! CONSENT_CSV = None ->
        files (input_tabs w c st).1 !! CONSENT_CSV
        = Some [ ["timestamp"; "consent_given"];
                 [strftime_consent c; "True"] ]) /\
     (forall old, files st !! CONSENT_CSV = Some old ->
        files (input_tabs w c st).1 !! CONSENT_CSV
        = Some (old ++ [[strftime_consent c; "True"]])) /\
     (forall other, other <> CONSENT_CSV ->
        files (input_tabs w c st).1 !! other = files st !! other)).
Proof.
  intros Hw. rewrite (input_tabs_consent_only _ _ _ Hw).
  destruct Hw as (Hc & _). unfold consent_tab. rewrite Hc.
  split; intros Hg; rewrite Hg; cbn.
  - now destruct st.
  - unfold consent_record.
    repeat split.
    + intros H. rewrite (save_to_csv_fresh _ _ _ H). apply lookup_insert_eq.
    + intros old H. rewrite (save_to_csv_existing _ _ _ _ H).
      apply lookup_insert_eq.
    + intros other H. apply save_to_csv_lookup_ne. congruence.
Qed.

(** ** The dataset files across runs *)

Lemma save_if_lookup_ne (b : bool) (d : record) (p q : string)
    (fs : gmap string csv_lines) :
  p <> q -> save_if b d p fs !! q = fs !! q.
Proof.
  intros H. unfold save_if. destruct b; [|reflexivity].
  now apply save_to_csv_lookup_ne.
Qed.

Lemma save_if_lookup (b : bool) (d : record) (p : string)
    (fs : gmap string csv_lines) :
  save_if b d p fs !! p
  = if b then Some (match fs !! p with
                    | None => [keys d; to_csv_row d]
                    | Some old => old ++ [to_csv_row d]
                    end)
    else fs !! p.
Proof.
  unfold save_if, save_to_csv. destruct b; [|reflexivity].
  destruct (fs !! p); apply lookup_insert_eq.
Qed.

Lemma save_if_table (b : bool) (d : record) (p : string) (h : list string)
    (fs : gmap string csv_lines) :
  keys d = h ->
  table_of h (fs !! p) -> table_of h (save_if b d p fs !! p).
Proof.
  intros Hk Ht. rewrite save_if_lookup. destruct b; [|assumption].
  right. destruct Ht as [->|[ls [-> Hls]]].
  - exists [to_csv_row d]. rewrite Hk. split; [reflexivity|].
    constructor; [|constructor]. now rewrite length_to_csv_row, Hk.
  - exists (ls ++ [to_csv_row d]). split; [reflexivity|].
    apply Forall_app. split; [assumption|].
    constructor; [|constructor]. now rewrite length_to_csv_row, Hk.
Qed.

Lemma step_written (st : state) (wc : widgets * clock) :
  written_by_the_script (files st) ->
  written_by_the_script (files (step st wc)).
Proof.
  intros (Hc & Hd & Ht & He). unfold step. rewrite files_input_tabs.
  repeat split.
  - rewrite !save_if_lookup_ne by discriminate. now apply save_if_table.
  - rewrite !save_if_lookup_ne by discriminate. apply save_if_table; [reflexivity|].
    now rewrite save_if_lookup_ne by discriminate.
  - rewrite !save_if_lookup_ne by discriminate. apply save_if_table; [reflexivity|].
    now rewrite !save_if_lookup_ne by discriminate.
  - apply save_if_table; [reflexivity|].
    now rewrite !save_if_lookup_ne by discriminate.
Qed.

Lemma session_written (inputs : list (widgets * clock)) :
  forall st : state,
    written_by_the_script (files st) ->
    written_by_the_script (files (session inputs st)).
Proof.
  induction inputs as [|wc inputs IH]; intros st H; [assumption|].
  cbn. apply IH. now apply step_written.
Qed.

Lemma step_exit_file (st : state) (wc : widgets * clock) :
  files (step st wc) !! EXIT_CSV
  = exit_file_after (files st !! EXIT_CSV)
      (if submitted_exit wc.1 then [exit_line wc] else []).
Proof.
  unfold step. rewrite files_input_tabs. rewrite save_if_lookup.
  rewrite !save_if_lookup_ne by discriminate.
  destruct (submitted_exit wc.1); [|reflexivity].
  cbn. now destruct (files st !! EXIT_CSV).
Qed.

Lemma exit_file_after_app (cur : option csv_lines) (l1 l2 : csv_lines) :
  exit_file_after (exit_file_after cur l1) l2 = exit_file_after cur (l1 ++ l2).
Proof.
  destruct l1 as [|x l1]; [reflexivity|].
  destruct l2 as [|y l2]; [now rewrite app_nil_r|].
  cbn. destruct cur; cbn; [now rewrite <- app_assoc|reflexivity].
Qed.

Lemma session_exit_file (inputs : list (widgets * clock)) :
  forall st : state,
    files (session inputs st) !! EXIT_CSV
    = exit_file_after (files st !! EXIT_CSV)
        (map exit_line (exit_submissions inputs)).
Proof.
  induction inputs as [|wc inputs IH]; intros st; [reflexivity|].
  change (session (wc :: inputs) st) with (session inputs (step st wc)).
  rewrite IH, step_exit_file, exit_file_after_app. f_equal.
  unfold exit_submissions. rewrite filter_cons.
  destruct (submitted_exit wc.1) eqn:E.
  - rewrite decide_True by reflexivity. reflexivity.
  - rewrite decide_False by discriminate. reflexivity.
Qed.

(** ** Properties of the report *)

Lemma load_table (h : list string) (p : string) (fs : gmap string csv_lines) :
  header_ok h = true ->
  table_of h (fs !! p) ->
  exists df, load_from_csv p fs = Ok df.
Proof.
  intros Hh [H|[ls [H Hls]]]; unfold load_from_csv; rewrite H.
  - now exists empty_frame.
  - rewrite read_csv_regular by now apply regular_table. eauto.
Qed.

Lemma int64_values_written (ns : list Z) :
  Forall (fun n => (- 2 ^ 63 <= n < 2 ^ 63)%Z) ns ->
  int64_values (map (fun n => parse_cell (int_repr n)) ns) = Some ns.
Proof.
  induction 1 as [|n ns Hn _ IH]; [reflexivity|].
  cbn [map int64_values]. unfold parse_cell at 1. rewrite is_na_int_repr.
  now rewrite (as_int64_int_repr _ Hn), IH.
Qed.

Lemma mean_written (ns : list Z) :
  ns <> [] ->
  Forall (fun n => (- 2 ^ 63 <= n < 2 ^ 63)%Z) ns ->
  mean (map (fun n => parse_cell (int_repr n)) ns) = Ok (Some (mean_of ns)).
Proof.
  intros Hne Hns. unfold mean. rewrite (int64_values_written _ Hns).
  now destruct ns.
Qed.

Lemma sum_Z_bounds (lo hi : Z) (ns : list Z) :
  Forall (fun n => (lo <= n <= hi)%Z) ns ->
  (lo * Z.of_nat (length ns) <= sum_Z ns <= hi * Z.of_nat (length ns))%Z.
Proof.
  induction 1 as [|n ns Hn _ IH].
  - cbn. lia.
  - cbn [sum_Z fold_right length]. fold (sum_Z ns). lia.
Qed.

Lemma mean_of_bounds (lo hi : Z) (ns : list Z) :
  ns <> [] ->
  Forall (fun n => (lo <= n <= hi)%Z) ns ->
  (inject_Z lo <= mean_of ns)%Q /\ (mean_of ns <= inject_Z hi)%Q.
Proof.
  intros Hne Hns. pose proof (sum_Z_bounds _ _ _ Hns) as [Hlo Hhi].
  assert (Hlen : Z.pos (Pos.of_nat (length ns)) = Z.of_nat (length ns)).
  { destruct ns as [|n ns]; [contradiction|].
    rewrite <- (Nat2Pos.id (length (n :: ns))) at 2 by discriminate.
    now rewrite positive_nat_Z. }
  unfold mean_of, Qle, inject_Z. cbn [Qnum Qden]. rewrite Hlen. lia.
Qed.

Lemma exit_averages_empty (df : DataFrame) :
  empty df = true -> exit_averages df = Ok None.
Proof. intros H. unfold exit_averages. now rewrite H. Qed.

Lemma satisfaction_column (subs : list (widgets * clock)) :
  map (fun r => nth 1 r NaN) (map (map parse_cell) (map exit_line subs))
  = map (fun n => parse_cell (int_repr n)) (satisfactions subs).
Proof.
  unfold satisfactions. rewrite !map_map. apply map_ext. now intros wc.
Qed.

Lemma difficulty_column (subs : list (widgets * clock)) :
  map (fun r => nth 2 r NaN) (map (map parse_cell) (map exit_line subs))
  = map (fun n => parse_cell (int_repr n)) (difficulties subs).
Proof.
  unfold difficulties. rewrite !map_map. apply map_ext. now intros wc.
Qed.

Lemma exit_averages_written (subs : list (widgets * clock)) :
  subs <> [] ->
  Forall (fun wc => widgets_in_range wc.1) subs ->
  exit_averages
    (mkDataFrame exit_header (map (map parse_cell) (map exit_line subs)))
  = Ok (Some (Some (mean_of (satisfactions subs)),
              Some (mean_of (difficulties subs)))).
Proof.
  intros Hne Hr. unfold exit_averages.
  assert (He : empty (mkDataFrame exit_header
                        (map (map parse_cell) (map exit_line subs))) = false)
    by now destruct subs.
  rewrite He. cbn [negb]. unfold getitem. cbn [columns rows].
  change (index_of "satisfaction" exit_header) with (Some 1%nat).
  change (index_of "difficulty" exit_header) with (Some 2%nat).
  assert (Hs : Forall (fun n => (- 2 ^ 63 <= n < 2 ^ 63)%Z) (satisfactions subs)).
  { unfold satisfactions. apply List.Forall_map.
    eapply Forall_impl; [exact Hr|]. intros wc (_ & H & _). cbn. lia. }
  assert (Hd : Forall (fun n => (- 2 ^ 63 <= n < 2 ^ 63)%Z) (difficulties subs)).
  { unfold difficulties. apply List.Forall_map.
    eapply Forall_impl; [exact Hr|]. intros wc (_ & _ & H). cbn. lia. }
  cbn [mbind result_bind]. rewrite satisfaction_column.
  rewrite mean_written; [|unfold satisfactions; now destruct subs|exact Hs].
  cbn [mbind result_bind]. rewrite difficulty_column.
  rewrite mean_written; [|unfold difficulties; now destruct subs|exact Hd].
  reflexivity.
Qed.

Lemma load_exit_file (subs : list (widgets * clock))
    (fs : gmap string csv_lines) :
  fs !! EXIT_CSV = exit_file_after None (map exit_line subs) ->
  load_from_csv EXIT_CSV fs
  = Ok (match subs with
        | [] => empty_frame
        | _ => mkDataFrame exit_header
                 (map (map parse_cell) (map exit_line subs))
        end).
Proof.
  intros H. unfold load_from_csv. rewrite H.
  destruct subs as [|wc subs]; [reflexivity|].
  cbn [exit_file_after map]. rewrite read_csv_regular; [reflexivity|].
  apply regular_table; [reflexivity|].
  apply List.Forall_forall. intros l Hl.
  change (exit_line wc :: map exit_line subs)
    with (map exit_line (wc :: subs)) in Hl.
  apply in_map_iff in Hl. now destruct Hl as [x [<- _]].
Qed.

Lemma exit_averages_after (subs : list (widgets * clock)) :
  Forall (fun wc => widgets_in_range wc.1) subs ->
  exit_averages (match subs with
                 | [] => empty_frame
                 | _ => mkDataFrame exit_header
                          (map (map parse_cell) (map exit_line subs))
                 end)
  = Ok (match subs with
        | [] => None
        | _ => Some (Some (mean_of (satisfactions subs)),
                     Some (mean_of (difficulties subs)))
        end).
Proof.
  intros Hr. destruct subs as [|wc subs]; [reflexivity|].
  now apply exit_averages_written.
Qed.

Lemma exit_submissions_in_range (inputs : list (widgets * clock)) :
  Forall (fun wc => widgets_in_range wc.1) inputs ->
  Forall (fun wc => widgets_in_range wc.1) (exit_submissions inputs).
Proof.
  intros H. apply List.Forall_forall. intros wc Hwc.
  rewrite List.Forall_forall in H. apply H.
  apply list_elem_of_In. apply list_elem_of_In in Hwc.
  unfold exit_submissions in Hwc. now apply list_elem_of_filter in Hwc.
Qed.

Lemma report_after_session (st0 : state) (inputs : list (widgets * clock)) :
  no_dataset_yet (files st0) ->
  Forall (fun wc => widgets_in_range wc.1) inputs ->
  exists r,
    report_tab (files (session inputs st0)) = Ok r /\
    averages r
    = match exit_submissions inputs with
      | [] => None
      | subs => Some (Some (mean_of (satisfactions subs)),
                      Some (mean_of (difficulties subs)))
      end.
Proof.
  intros (Hc & Hd & Ht & He) Hr.
  assert (Hw : written_by_the_script (files (session inputs st0))).
  { apply session_written. repeat split; now left. }
  destruct Hw as (Wc & Wd & Wt & _).
  destruct (load_table _ _ _ (eq_refl : header_ok consent_header = true) Wc)
    as [dfc Lc].
  destruct (load_table _ _ _ (eq_refl : header_ok demographic_header = true) Wd)
    as [dfd Ld].
  destruct (load_table _ _ _ (eq_refl : header_ok task_header = true) Wt)
    as [dft Lt].
  pose proof (session_exit_file inputs st0) as Hx. rewrite He in Hx.
  unfold report_tab. rewrite Lc, Ld, Lt, (load_exit_file _ _ Hx).
  cbn [mbind result_bind].
  rewrite (exit_averages_after _ (exit_submissions_in_range _ Hr)).
  cbn [mbind result_bind]. eexists. split; [reflexivity|].
  cbn [averages]. now destruct (exit_submissions inputs).
Qed.

(** C5.  Runs of the script from a study with no dataset yet, the sliders
    within their bounds.  The report succeeds, and its averages are the sum
    over the count of the satisfaction and of the difficulty of all the Exit
    submissions; over the submissions 3, 2 and 5, 4 they are 4 and 3.  With
    no Exit submission there is no averages section, and an empty Exit frame
    gives none in any case: neither a zero nor an exception. *)
Theorem report_averages_are_the_means (st0 : state)
    (inputs : list (widgets * clock)) :
  no_dataset_yet (files st0) ->
  Forall (fun wc => widgets_in_range wc.1) inputs ->
  (exists r,
     report_tab (files (session inputs st0)) = Ok r /\
     averages r
     = match exit_submissions inputs with
       | [] => None
       | subs => Some (Some (mean_of (satisfactions subs)),
                       Some (mean_of (difficulties subs)))
       end) /\
  (forall w c, (main w c (session inputs st0)).2
               = report_tab (files (session (inputs ++ [(w, c)]) st0))) /\
  (forall df, empty df = true -> exit_averages df = Ok None) /\
  (mean_of [3; 5]%Z == 4)%Q /\ (mean_of [2; 4]%Z == 3)%Q.
Proof.
  intros H0 Hr. split; [now apply report_after_session|].
  split; [|split; [apply exit_averages_empty|split; reflexivity]].
  intros w c. unfold session. rewrite fold_left_app. cbn [fold_left].
  generalize (fold_left step inputs st0). intros st.
  unfold main, step. cbn [fst snd].
  now destruct (input_tabs w c st).
Qed.

(** C10.  Runs of the script from a state with no Exit file, the sliders
    within their bounds.  The Exit file holds the header and one line per Exit
    submission, each submission with satisfaction and difficulty between 1
    and 5; and whenever the loaded Exit frame is not empty, both averages of
    the report are numbers between 1 and 5. *)
Theorem exit_scores_and_means_are_between_1_and_5 (st0 : state)
    (inputs : list (widgets * clock)) :
  files st0 !! EXIT_CSV = None ->
  Forall (fun wc => widgets_in_range wc.1) inputs ->
  let subs := exit_submissions inputs in
  let fs := files (session inputs st0) in
  fs !! EXIT_CSV = exit_file_after None (map exit_line subs) /\
  Forall (fun wc => (1 <= satisfaction wc.1 <= 5)%Z /\
                    (1 <= difficulty wc.1 <= 5)%Z) subs /\
  exists df,
    load_from_csv EXIT_CSV fs = Ok df /\
    (empty df = false ->
       exists ms md,
         exit_averages df = Ok (Some (Some ms, Some md)) /\
         (1 <= ms)%Q /\ (ms <= 5)%Q /\ (1 <= md)%Q /\ (md <= 5)%Q).
Proof.
  intros He Hr. cbv zeta.
  pose proof (session_exit_file inputs st0) as Hx. rewrite He in Hx.
  pose proof (exit_submissions_in_range _ Hr) as Hs.
  assert (Hb : Forall (fun wc => (1 <= satisfaction wc.1 <= 5)%Z /\
                                 (1 <= difficulty wc.1 <= 5)%Z)
                 (exit_submissions inputs)).
  { eapply Forall_impl; [exact Hs|]. now intros wc (_ & H1 & H2). }
  split; [exact Hx|]. split; [exact Hb|].
  eexists. split; [apply (load_exit_file _ _ Hx)|].
  rewrite (exit_averages_after _ Hs).
  destruct (exit_submissions inputs) as [|wc subs] eqn:E;
    [intros H; cbn in H; discriminate H|].
  intros _. do 2 eexists. split; [reflexivity|].
  assert (Hsat : Forall (fun n => (1 <= n <= 5)%Z) (satisfactions (wc :: subs))).
  { unfold satisfactions. apply List.Forall_map.
    eapply Forall_impl; [exact Hb|]. now intros x [H _]. }
  assert (Hdif : Forall (fun n => (1 <= n <= 5)%Z) (difficulties (wc :: subs))).
  { unfold difficulties. apply List.Forall_map.
    eapply Forall_impl; [exact Hb|]. now intros x [_ H]. }
  assert (A : satisfactions (wc :: subs) <> []) by discriminate.
  assert (B : difficulties (wc :: subs) <> []) by discriminate.
  destruct (mean_of_bounds 1 5 _ A Hsat).
  destruct (mean_of_bounds 1 5 _ B Hdif).
  repeat split; assumption.
Qed.

(** ** Further properties: what a run can and cannot change *)

Lemma session_state_input_tabs (w : widgets) (c : clock) (st : state) :
  session_state (input_tabs w c st).1
  = if save_pressed w
    then clear_timer (timer_before_save w c (session_state st))
    else timer_before_save w c (session_state st).
Proof.
  unfold input_tabs, consent_tab, demographics_tab, tasks_tab, exit_tab,
    timer_before_save, save_task_results.
  destruct (submit_consent w), (consent_given w), (submitted w),
    (start_pressed w), (stop_pressed w);
    cbn -[stop_timer start_timer save_to_csv clear_timer];
    try match goal with
        | |- context [stop_timer ?t ?ss] => destruct (stop_timer t ss)
        end;
    destruct (save_pressed w), (submitted_exit w); reflexivity.
Qed.

Lemma input_tabs_nothing_pressed (w : widgets) (c : clock) (st : state) :
  nothing_pressed w -> input_tabs w c st = (st, []).
Proof.
  intros (Hc & Hd & Hs & Hp & Hv & He).
  unfold input_tabs, consent_tab, demographics_tab, tasks_tab, exit_tab.
  rewrite Hc, Hd, Hs, Hp, Hv. cbn. rewrite He. now destruct st.
Qed.

(** X1.  A run in which no button is pressed and no form submitted changes
    no file and nothing of the session state and shows no message, whatever
    the widgets hold: ticking the consent box, typing in a field or moving a
    slider saves nothing.  The report of that run is the report of the state
    as it was. *)
Theorem widgets_alone_save_nothing (w : widgets) (c : clock) (st : state) :
  nothing_pressed w ->
  main w c st = (st, [], report_tab (files st)).
Proof.
  intros H. unfold main. now rewrite (input_tabs_nothing_pressed _ _ _ H).
Qed.

Lemma save_if_extends (b : bool) (d : record) (p q : string)
    (fs : gmap string csv_lines) (old : csv_lines) :
  fs !! q = Some old ->
  exists extra, save_if b d p fs !! q = Some (old ++ extra).
Proof.
  intros H. destruct (decide (p = q)) as [->|Hne].
  - rewrite save_if_lookup, H. destruct b.
    + now exists [to_csv_row d].
    + exists []. now rewrite app_nil_r.
  - rewrite save_if_lookup_ne by assumption. exists []. now rewrite app_nil_r.
Qed.

Lemma step_extends (st : state) (wc : widgets * clock) (p : string)
    (old : csv_lines) :
  files st !! p = Some old ->
  exists extra, files (step st wc) !! p = Some (old ++ extra).
Proof.
  intros H. unfold step. rewrite files_input_tabs.
  destruct (save_if_extends (submit_consent wc.1 && consent_given wc.1)
              (consent_record (strftime_consent wc.2) (consent_given wc.1))
              CONSENT_CSV p _ _ H) as [e1 H1].
  destruct (save_if_extends (submitted wc.1)
              (demographic_record (strftime_demographics wc.2) wc.1)
              DEMOGRAPHIC_CSV p _ _ H1) as [e2 H2].
  destruct (save_if_extends (save_pressed wc.1)
              (task_record (strftime_task wc.2) (selected_task wc.1)
                 (success wc.1) (notes wc.1)
                 (timer_before_save wc.1 wc.2 (session_state st)))
              TASK_CSV p _ _ H2) as [e3 H3].
  destruct (save_if_extends (submitted_exit wc.1)
              (exit_record (strftime_exit wc.2) wc.1)
              EXIT_CSV p _ _ H3) as [e4 H4].
  exists (e1 ++ e2 ++ e3 ++ e4). rewrite H4. f_equal.
  now rewrite <- !app_assoc.
Qed.

Lemma step_other_path (st : state) (wc : widgets * clock) (p : string) :
  p <> CONSENT_CSV -> p <> DEMOGRAPHIC_CSV -> p <> TASK_CSV -> p <> EXIT_CSV ->
  files (step st wc) !! p = files st !! p.
Proof.
  intros Hc Hd Ht He. unfold step. rewrite files_input_tabs.
  now rewrite !save_if_lookup_ne by congruence.
Qed.

(** X2.  The script only ever appends.  Through any series of runs, a file
    that exists keeps every line it had, in place, with new lines added
    after them at most: no line and no header is rewritten or removed, no
    file deleted.  A path that is not one of the four dataset files is never
    written. *)
Theorem session_only_appends (inputs : list (widgets * clock)) (st : state)
    (p : string) :
  (forall old, files st !! p = Some old ->
     exists extra, files (session inputs st) !! p = Some (old ++ extra)) /\
  (p <> CONSENT_CSV -> p <> DEMOGRAPHIC_CSV -> p <> TASK_CSV ->
   p <> EXIT_CSV ->
   files (session inputs st) !! p = files st !! p).
Proof.
  revert st. induction inputs as [|wc inputs IH]; intros st.
  - split; [|reflexivity]. intros old H. exists []. now rewrite app_nil_r.
  - change (session (wc :: inputs) st) with (session inputs (step st wc)).
    destruct (IH (step st wc)) as [IH1 IH2]. split.
    + intros old H. destruct (step_extends st wc p old H) as [e1 H1].
      destruct (IH1 _ H1) as [e2 H2]. exists (e1 ++ e2).
      rewrite H2. now rewrite <- app_assoc.
    + intros Hc Hd Ht He. rewrite IH2 by assumption.
      now apply step_other_path.
Qed.

(** ** Further properties: the session state *)

Lemma start_timer_consistent (t : Q) (ss : gmap string Q) :
  timer_consistent ss -> timer_consistent (start_timer t ss).
Proof.
  intros [Hk Hd]. unfold start_timer. split.
  - intros k Hs. destruct (decide (k = "start_time")) as [->|Hne];
      [now left|]. rewrite lookup_insert_ne in Hs by congruence. now apply Hk.
  - intros _. rewrite lookup_insert_eq. eauto.
Qed.

Lemma stop_timer_consistent (t : Q) (ss : gmap string Q) :
  timer_consistent ss -> timer_consistent (stop_timer t ss).1.
Proof.
  intros [Hk Hd]. unfold stop_timer.
  destruct (ss !! "start_time") as [s|] eqn:E;
    [|cbn; split; [assumption|now rewrite E]].
  cbn. split.
  - intros k Hs. destruct (decide (k = "task_duration")) as [->|Hne];
      [now right|]. rewrite lookup_insert_ne in Hs by congruence. now apply Hk.
  - intros _. rewrite lookup_insert_ne by discriminate. rewrite E. eauto.
Qed.

Lemma clear_timer_consistent (ss : gmap string Q) :
  timer_consistent ss -> clear_timer ss = ∅.
Proof.
  intros [Hk _]. apply map_eq. intros k. rewrite lookup_empty.
  unfold clear_timer.
  destruct (decide (k = "task_duration")) as [->|H1];
    [apply lookup_delete_eq|].
  rewrite lookup_delete_ne by congruence.
  destruct (decide (k = "start_time")) as [->|H2];
    [apply lookup_delete_eq|].
  rewrite lookup_delete_ne by congruence.
  destruct (ss !! k) eqn:E; [|reflexivity].
  destruct (Hk k) as [->| ->]; [rewrite E; eauto|congruence|congruence].
Qed.

Lemma timer_before_save_consistent (w : widgets) (c : clock)
    (ss : gmap string Q) :
  timer_consistent ss -> timer_consistent (timer_before_save w c ss).
Proof.
  intros H. unfold timer_before_save.
  destruct (start_pressed w), (stop_pressed w);
    auto using start_timer_consistent, stop_timer_consistent.
Qed.

Lemma step_consistent (st : state) (wc : widgets * clock) :
  timer_consistent (session_state st) ->
  timer_consistent (session_state (step st wc)).
Proof.
  intros H. unfold step. rewrite session_state_input_tabs.
  pose proof (timer_before_save_consistent wc.1 wc.2 _ H) as H'.
  destruct (save_pressed wc.1); [|exact H'].
  rewrite (clear_timer_consistent _ H'). split.
  - intros k [x Hx]. rewrite lookup_empty in Hx. discriminate.
  - intros [x Hx]. rewrite lookup_empty in Hx. discriminate.
Qed.

(** X3.  Through any series of runs the session state keeps its shape: it
    holds no key but [start_time] and [task_duration], and a duration is
    stored only while a start time is; a run that saves the task results
    leaves the session state empty.  A browser session starts with an empty
    session state, which has this shape. *)
Theorem session_state_stays_consistent (inputs : list (widgets * clock))
    (st : state) :
  timer_consistent (session_state st) ->
  timer_consistent (session_state (session inputs st)) /\
  (forall w c, save_pressed w = true ->
     session_state (input_tabs w c (session inputs st)).1 = ∅).
Proof.
  revert st. induction inputs as [|wc inputs IH]; intros st H.
  - split; [exact H|]. intros w c Hs. cbn [session fold_left].
    rewrite session_state_input_tabs, Hs.
    apply clear_timer_consistent. now apply timer_before_save_consistent.
  - change (session (wc :: inputs) st) with (session inputs (step st wc)).
    apply IH. now apply step_consistent.
Qed.

(** ** Further properties: how the timer buttons compose *)

Lemma stop_after_start (t0 t1 : Q) (ss : gmap string Q) :
  (stop_timer t1 (start_timer t0 ss)).1
  = <["task_duration" := (t1 - t0)%Q]> (<["start_time" := t0]> ss).
Proof.
  unfold stop_timer, start_timer. now rewrite lookup_insert_eq.
Qed.

Lemma duration_field_nonzero (ss : gmap string Q) (d : Q) :
  ss !! "task_duration" = Some d -> ~ (d == 0)%Q ->
  duration_field ss = VFloat d.
Proof.
  intros H Hd. unfold duration_field. rewrite H. now rewrite truthy_nonzero.
Qed.

(** X4.  Two Start/Stop cycles before Save Task Results: the duration kept,
    and saved when it is not zero, is that of the second cycle alone.  A
    Start pressed while the timer runs restarts it: the Stop that follows
    measures from the later Start. *)
Theorem most_recent_cycle_wins (t0 t1 t2 t3 : Q) (ss : gmap string Q) :
  let ss' :=
    (stop_timer t3 (start_timer t2 (stop_timer t1 (start_timer t0 ss)).1)).1 in
  ss' !! "task_duration" = Some (t3 - t2)%Q /\
  ss' !! "start_time" = Some t2 /\
  (~ (t3 - t2 == 0)%Q -> duration_field ss' = VFloat (t3 - t2)) /\
  (stop_timer t3 (start_timer t2 (start_timer t0 ss))).1 !! "task_duration"
  = Some (t3 - t2)%Q.
Proof.
  cbv zeta. rewrite !stop_after_start.
  assert (H : <["task_duration" := (t3 - t2)%Q]>
                (<["start_time" := t2]>
                   (<["task_duration" := (t1 - t0)%Q]>
                      (<["start_time" := t0]> ss))) !! "task_duration"
              = Some (t3 - t2)%Q) by apply lookup_insert_eq.
  split; [exact H|]. split; [|split].
  - rewrite lookup_insert_ne by discriminate. apply lookup_insert_eq.
  - intros Hd. now apply duration_field_nonzero.
  - apply lookup_insert_eq.
Qed.

(** X5.  Start does not clear a duration stored by an earlier cycle.  After
    Start, Stop and a new Start, and until Stop is pressed again, the session
    still holds the duration of the first cycle, and Save Task Results saves
    that one for the new attempt. *)
Theorem restart_keeps_the_previous_duration (t0 t1 t2 : Q)
    (ss : gmap string Q) :
  let ss' := start_timer t2 (stop_timer t1 (start_timer t0 ss)).1 in
  ss' !! "start_time" = Some t2 /\
  ss' !! "task_duration" = Some (t1 - t0)%Q /\
  (~ (t1 - t0 == 0)%Q ->
   forall ts task outcome observer_notes,
     to_csv_row (task_record ts task outcome observer_notes ss')
     = [ts; task; outcome; float_repr (t1 - t0); observer_notes]).
Proof.
  cbv zeta. rewrite stop_after_start. unfold start_timer.
  assert (H : <["start_time" := t2]>
                (<["task_duration" := (t1 - t0)%Q]>
                   (<["start_time" := t0]> ss)) !! "task_duration"
              = Some (t1 - t0)%Q).
  { rewrite lookup_insert_ne by discriminate. apply lookup_insert_eq. }
  split; [apply lookup_insert_eq|]. split; [exact H|].
  intros Hd ts task outcome observer_notes.
  unfold to_csv_row, task_record. cbn [vals map snd to_text].
  now rewrite (duration_field_nonzero _ _ H Hd).
Qed.

Lemma clear_timer_lookup (ss : gmap string Q) :
  clear_timer ss !! "start_time" = None /\
  clear_timer ss !! "task_duration" = None.
Proof.
  unfold clear_timer. split.
  - rewrite lookup_delete_ne by discriminate. apply lookup_delete_eq.
  - apply lookup_delete_eq.
Qed.

(** X6.  Save Task Results leaves the timer idle, whatever state it found:
    a Stop pressed next changes nothing and announces nothing, and a second
    Save, with no Start and Stop in between, writes the empty placeholder
    for the duration. *)
Theorem save_leaves_the_timer_idle (w : widgets) (c : clock) (st : state) :
  let st' := (save_task_results w c st).1 in
  (forall t, stop_timer t (session_state st') = (session_state st', [])) /\
  (forall w' c', only_stop_pressed w' -> input_tabs w' c' st' = (st', [])) /\
  (forall w' c',
     to_csv_row (task_record (strftime_task c') (selected_task w')
                   (success w') (notes w') (session_state st'))
     = [strftime_task c'; selected_task w'; success w'; ""; notes w']).
Proof.
  cbv zeta. cbn [save_task_results fst session_state].
  destruct (clear_timer_lookup (session_state st)) as [Hs Hd].
  assert (Hstop : forall t,
            stop_timer t (clear_timer (session_state st))
            = (clear_timer (session_state st), [])).
  { intros t. unfold stop_timer. now rewrite Hs. }
  split; [exact Hstop|]. split.
  - intros w' c' Hw. rewrite (input_tabs_stop_only _ _ _ Hw).
    cbn [session_state files]. now rewrite Hstop.
  - intros w' c'. unfold to_csv_row, task_record, duration_field.
    now rewrite Hd.
Qed.

(** ** Further properties: files whose lines differ from the header *)



Lemma irregular_with_odd_line (h l : list string) (ls1 ls2 : csv_lines) :
  length l <> length h -> regular (h :: ls1 ++ l :: ls2) = false.
Proof.
  intros Hl. cbn [regular]. rewrite forallb_app. cbn [forallb].
  apply Nat.eqb_neq in Hl. rewrite Hl.
  now rewrite andb_false_r, andb_false_r.
Qed.

(** X8.  [save_to_csv] on an existing file with a record that has more or
    fewer fields than the header has names leaves a file that is not a
    regular table, and nothing repairs it: after any further appends the
    file still is not one, and [load_from_csv] is whatever [read_csv] makes
    of such a file. *)
Theorem ragged_append_is_permanent (d : record) (ds : list record)
    (p : string) (fs : gmap string csv_lines) (h : list string)
    (ls : csv_lines) :
  fs !! p = Some (h :: ls) ->
  length d <> length h ->
  exists f,
    append_all p (d :: ds) fs !! p = Some f /\
    regular f = false /\
    load_from_csv p (append_all p (d :: ds) fs) = read_irregular f.
Proof.
  intros Hf Hl.
  pose proof (append_all_existing p (d :: ds) fs _ Hf) as Ha.
  exists ((h :: ls) ++ map to_csv_row (d :: ds)).
  split; [exact Ha|].
  assert (Hr : regular ((h :: ls) ++ map to_csv_row (d :: ds)) = false).
  { cbn [map app]. apply irregular_with_odd_line.
    rewrite length_to_csv_row. unfold keys. now rewrite length_map. }
  split; [exact Hr|].
  unfold load_from_csv. rewrite Ha. unfold read_csv.
  cbn [app]. cbn [app] in Hr. now rewrite Hr.
Qed.

(** ** Further properties: one line per accepted submission *)







(** ** Further properties: the Demographics dataset *)

Lemma step_demographic_file (st : state) (wc : widgets * clock) :
  files (step st wc) !! DEMOGRAPHIC_CSV
  = if submitted wc.1
    then Some (match files st !! DEMOGRAPHIC_CSV with
               | None => [demographic_header; demographic_line wc]
               | Some old => old ++ [demographic_line wc]
               end)
    else files st !! DEMOGRAPHIC_CSV.
Proof.
  unfold step. rewrite files_input_tabs.
  rewrite !save_if_lookup_ne by discriminate. rewrite save_if_lookup.
  now rewrite save_if_lookup_ne by discriminate.
Qed.




(** ** Further properties: a report that fails *)

(** X11.  The report reads the column [satisfaction] of the Exit frame
    without a test: on an Exit file that is a regular table with a data line
    and no [satisfaction] column, the report tab ends in a [KeyError] (here
    with the three other files absent, so that the run gets that far). *)
Theorem report_needs_the_satisfaction_column (fs : gmap string csv_lines)
    (h l : list string) (ls : csv_lines) :
  fs !! CONSENT_CSV = None ->
  fs !! DEMOGRAPHIC_CSV = None ->
  fs !! TASK_CSV = None ->
  fs !! EXIT_CSV = Some (h :: l :: ls) ->
  regular (h :: l :: ls) = true ->
  index_of "satisfaction" h = None ->
  report_tab fs = Raised KeyError.
Proof.
  intros Hc Hd Ht He Hr Hi. unfold report_tab, load_from_csv.
  rewrite Hc, Hd, Ht, He, (read_csv_regular _ _ Hr).
  cbn [mbind result_bind]. unfold exit_averages, empty, getitem.
  cbn [columns rows map]. rewrite Hi.
  destruct h; [discriminate|reflexivity].
Qed.

(** ** Further properties: a clock that never goes back *)

Lemma timer_within_mono (t t' : Q) (ss : gmap string Q) :
  (t <= t')%Q -> timer_within t ss -> timer_within t' ss.
Proof.
  intros Ht [Hs Hd]. split; [|exact Hd].
  intros s H. eapply Qle_trans; [now apply Hs|exact Ht].
Qed.

Lemma start_timer_within (t : Q) (ss : gmap string Q) :
  (forall d, ss !! "task_duration" = Some d -> (0 <= d)%Q) ->
  timer_within t (start_timer t ss).
Proof.
  intros Hd. unfold start_timer. split.
  - intros s H. rewrite lookup_insert_eq in H. injection H as <-.
    apply Qle_refl.
  - intros d H. rewrite lookup_insert_ne in H by discriminate. now apply Hd.
Qed.

Lemma stop_timer_within (t : Q) (ss : gmap string Q) :
  timer_within t ss -> timer_within t (stop_timer t ss).1.
Proof.
  intros [Hs Hd]. unfold stop_timer.
  destruct (ss !! "start_time") as [s|] eqn:E; cbn [fst];
    [|split; [now rewrite E|assumption]].
  split.
  - intros s' H. rewrite lookup_insert_ne in H by discriminate.
    rewrite E in H. injection H as <-. now apply Hs.
  - intros d H. rewrite lookup_insert_eq in H. injection H as <-.
    unfold Qminus. apply (proj1 (Qle_minus_iff s t)). now apply Hs.
Qed.

Lemma timer_before_save_within (t : Q) (w : widgets) (c : clock)
    (ss : gmap string Q) :
  timer_within t ss ->
  (t <= time_start c)%Q -> (time_start c <= time_stop c)%Q ->
  timer_within (time_stop c) (timer_before_save w c ss).
Proof.
  intros H H1 H2. unfold timer_before_save.
  assert (Hss1 : timer_within (time_stop c)
                   (if start_pressed w then start_timer (time_start c) ss
                    else ss)).
  { destruct (start_pressed w).
    - apply (timer_within_mono (time_start c)); [assumption|].
      apply start_timer_within. exact (proj2 H).
    - apply (timer_within_mono t); [|assumption].
      eapply Qle_trans; eassumption. }
  destruct (stop_pressed w); [|exact Hss1]. now apply stop_timer_within.
Qed.

Lemma clear_timer_within (t : Q) (ss : gmap string Q) :
  timer_within t (clear_timer ss).
Proof.
  destruct (clear_timer_lookup ss) as [Hs Hd].
  split; intros x H; congruence.
Qed.

Lemma step_within (t : Q) (st : state) (wc : widgets * clock) :
  timer_within t (session_state st) ->
  (t <= time_start wc.2)%Q -> (time_start wc.2 <= time_stop wc.2)%Q ->
  timer_within (time_stop wc.2) (session_state (step st wc)).
Proof.
  intros H H1 H2. unfold step. rewrite session_state_input_tabs.
  destruct (save_pressed wc.1); [apply clear_timer_within|].
  now apply (timer_before_save_within t).
Qed.

(** X12.  With a clock that never goes back (the start reading of a run not
    before the readings of the runs before it, the stop reading not before
    the start reading), and a session state that holds no negative duration
    and no start time in the future, no series of runs stores a negative
    duration. *)
Theorem no_negative_duration_under_a_monotone_clock
    (inputs : list (widgets * clock)) (t : Q) (st : state) :
  timer_within t (session_state st) ->
  clock_monotone t inputs ->
  forall d,
    session_state (session inputs st) !! "task_duration" = Some d ->
    (0 <= d)%Q.
Proof.
  revert t st. induction inputs as [|wc inputs IH]; intros t st H Hm.
  - exact (proj2 H).
  - change (session (wc :: inputs) st) with (session inputs (step st wc)).
    destruct Hm as (H1 & H2 & Hm).
    apply (IH (time_stop wc.2)); [|exact Hm]. now apply (step_within t).
Qed.

(** The duration cell of the line Save Task Results writes. *)
Lemma duration_cell_of_task_record (t : Q) (ts task outcome observer_notes
    : string) (ss : gmap string Q) :
  timer_within t ss ->
  duration_cell_ok
    (to_csv_row (task_record ts task outcome observer_notes ss)).
Proof.
  intros [_ Hd]. unfold duration_cell_ok, to_csv_row, task_record.
  cbn [vals map snd nth]. unfold duration_field.
  destruct (ss !! "task_duration") as [d|] eqn:E; [|now left].
  destruct (truthy (Some d)) eqn:T; [|now left].
  right. exists d. split; [|reflexivity].
  destruct (proj1 (Qle_lteq 0 d) (Hd d eq_refl)) as [Hlt|Heq]; [exact Hlt|].
  symmetry in Heq. rewrite (truthy_zero _ Heq) in T. discriminate.
Qed.

Lemma step_task_file (st : state) (wc : widgets * clock) :
  files (step st wc) !! TASK_CSV
  = if save_pressed wc.1
    then Some (match files st !! TASK_CSV with
               | None => [task_header;
                          to_csv_row
                            (task_record (strftime_task wc.2)
                               (selected_task wc.1) (success wc.1)
                               (notes wc.1)
                               (timer_before_save wc.1 wc.2
                                  (session_state st)))]
               | Some old =>
                   old ++ [to_csv_row
                             (task_record (strftime_task wc.2)
                                (selected_task wc.1) (success wc.1)
                                (notes wc.1)
                                (timer_before_save wc.1 wc.2
                                   (session_state st)))]
               end)
    else files st !! TASK_CSV.
Proof.
  unfold step. rewrite files_input_tabs.
  rewrite !save_if_lookup_ne by discriminate. rewrite save_if_lookup.
  now rewrite !save_if_lookup_ne by discriminate.
Qed.

(** X13.  With a clock that never goes back, from a state with no Task file
    (and a session state as in X12), the Task file after any series of runs
    is the header followed by lines whose [duration_seconds] cell is empty or
    the text of a positive number: no negative and no zero duration is ever
    written. *)
Theorem task_file_durations_under_a_monotone_clock
    (inputs : list (widgets * clock)) (t : Q) (st : state) :
  timer_within t (session_state st) ->
  clock_monotone t inputs ->
  files st !! TASK_CSV = None \/
  (exists ls, files st !! TASK_CSV = Some (task_header :: ls) /\
              Forall duration_cell_ok ls) ->
  files (session inputs st) !! TASK_CSV = None \/
  (exists ls, files (session inputs st) !! TASK_CSV
              = Some (task_header :: ls) /\
              Forall duration_cell_ok ls).
Proof.
  revert t st. induction inputs as [|wc inputs IH]; intros t st H Hm Hf.
  - exact Hf.
  - change (session (wc :: inputs) st) with (session inputs (step st wc)).
    destruct Hm as (H1 & H2 & Hm).
    apply (IH (time_stop wc.2)); [now apply (step_within t)|exact Hm|].
    rewrite step_task_file. destruct (save_pressed wc.1); [|exact Hf].
    right.
    pose proof (duration_cell_of_task_record (time_stop wc.2)
                  (strftime_task wc.2) (selected_task wc.1) (success wc.1)
                  (notes wc.1) _
                  (timer_before_save_within t wc.1 wc.2 _ H H1 H2)) as Hc.
    destruct Hf as [Hn|(ls & Hs & Hls)]; [rewrite Hn|rewrite Hs].
    + exists [to_csv_row
                (task_record (strftime_task wc.2) (selected_task wc.1)
                   (success wc.1) (notes wc.1)
                   (timer_before_save wc.1 wc.2 (session_state st)))].
      split; [reflexivity|]. constructor; [exact Hc|constructor].
    + exists (ls ++ [to_csv_row
                       (task_record (strftime_task wc.2) (selected_task wc.1)
                          (success wc.1) (notes wc.1)
                          (timer_before_save wc.1 wc.2 (session_state st)))]).
      split; [reflexivity|]. apply Forall_app. split; [assumption|].
      constructor; [exact Hc|constructor].
Qed.

(** ** Further properties: the Consent dataset, and which form writes where *)

Lemma step_consent_file (st : state) (wc : widgets * clock) :
  files (step st wc) !! CONSENT_CSV
  = if consent_accepted wc.1
    then Some (match files st !! CONSENT_CSV with
               | None => [consent_header; consent_line wc]
               | Some old => old ++ [consent_line wc]
               end)
    else files st !! CONSENT_CSV.
Proof.
  unfold step. rewrite files_input_tabs.
  rewrite !save_if_lookup_ne by discriminate. rewrite save_if_lookup.
  unfold consent_accepted.
  destruct (submit_consent wc.1), (consent_given wc.1); reflexivity.
Qed.

Lemma session_consent_file (inputs : list (widgets * clock)) :
  forall (st : state) (old : csv_lines),
    files st !! CONSENT_CSV = Some old ->
    files (session inputs st) !! CONSENT_CSV
    = Some (old ++ map consent_line (consent_submissions inputs)).
Proof.
  induction inputs as [|wc inputs IH]; intros st old H.
  - cbn. now rewrite app_nil_r.
  - change (session (wc :: inputs) st) with (session inputs (step st wc)).
    unfold consent_submissions. rewrite filter_cons.
    pose proof (step_consent_file st wc) as Hs. rewrite H in Hs.
    destruct (consent_accepted wc.1) eqn:E.
    + rewrite decide_True by reflexivity.
      rewrite (IH _ _ Hs). cbn [map]. now rewrite <- app_assoc.
    + rewrite decide_False by discriminate. now apply IH.
Qed.

(** X14.  Through any series of runs from a state with no Consent file, the
    Consent file holds the header and one line for each Consent submission
    made with the box ticked, in their order, and every line reads [True]
    under [consent_given]: no refusal and no [False] is ever written, so the
    file cannot tell how often consent was declined. *)
Theorem consent_file_holds_only_affirmations (st0 : state)
    (inputs : list (widgets * clock)) :
  files st0 !! CONSENT_CSV = None ->
  files (session inputs st0) !! CONSENT_CSV
  = match consent_submissions inputs with
    | [] => None
    | subs => Some (consent_header
                      :: map (fun wc => [strftime_consent wc.2; "True"]) subs)
    end.
Proof.
  revert st0. induction inputs as [|wc inputs IH]; intros st H; [exact H|].
  change (session (wc :: inputs) st) with (session inputs (step st wc)).
  unfold consent_submissions. rewrite filter_cons.
  pose proof (step_consent_file st wc) as Hs. rewrite H in Hs.
  destruct (consent_accepted wc.1) eqn:E.
  - rewrite decide_True by reflexivity.
    now rewrite (session_consent_file _ _ _ Hs).
  - rewrite decide_False by discriminate. now apply IH.
Qed.

(** X15.  In one run, whatever else is pressed, a dataset file changes only
    when its own form is accepted: the Consent file on a ticked Consent
    submission, the Demographics file on a Demographics submission, the Task
    file on Save Task Results, the Exit file on an Exit submission.  The
    session state changes only on the three buttons of the Task tab. *)
Theorem a_dataset_changes_only_on_its_own_form (w : widgets) (c : clock)
    (st : state) :
  (consent_accepted w = false ->
   files (input_tabs w c st).1 !! CONSENT_CSV = files st !! CONSENT_CSV) /\
  (submitted w = false ->
   files (input_tabs w c st).1 !! DEMOGRAPHIC_CSV
   = files st !! DEMOGRAPHIC_CSV) /\
  (save_pressed w = false ->
   files (input_tabs w c st).1 !! TASK_CSV = files st !! TASK_CSV) /\
  (submitted_exit w = false ->
   files (input_tabs w c st).1 !! EXIT_CSV = files st !! EXIT_CSV) /\
  (start_pressed w = false -> stop_pressed w = false ->
   save_pressed w = false ->
   session_state (input_tabs w c st).1 = session_state st).
Proof.
  pose proof (step_consent_file st (w, c)) as Hc.
  pose proof (step_demographic_file st (w, c)) as Hd.
  pose proof (step_task_file st (w, c)) as Ht.
  pose proof (step_exit_file st (w, c)) as He.
  unfold step in *. cbn [fst snd] in *.
  split; [|split; [|split; [|split]]].
  - intros H. now rewrite Hc, H.
  - intros H. now rewrite Hd, H.
  - intros H. now rewrite Ht, H.
  - intros H. now rewrite He, H.
  - intros H1 H2 H3. rewrite session_state_input_tabs, H3.
    unfold timer_before_save. now rewrite H1, H2.
Qed.

End Script.

(** ** Worked examples *)



(** C2, on a fresh path and on a file whose header names other fields. *)
Lemma save_to_csv_creates_or_appends_example :
  let fs : gmap string csv_lines := {[ EXIT_CSV := [["a"; "b"]; ["1"; "2"]] ]} in
  let d := [("c", VStr "x")] in
  (fs !! TASK_CSV = None /\
   save_to_csv repr_whole d TASK_CSV fs !! TASK_CSV = Some [["c"]; ["x"]]) /\
  (fs !! EXIT_CSV = Some [["a"; "b"]; ["1"; "2"]] /\
   save_to_csv repr_whole d EXIT_CSV fs !! EXIT_CSV
   = Some [["a"; "b"]; ["1"; "2"]; ["x"]]).
Proof.
  cbv zeta.
  assert (H1 : ({[ EXIT_CSV := [["a"; "b"]; ["1"; "2"]] ]}
                  : gmap string csv_lines) !! TASK_CSV = None)
    by (apply lookup_singleton_ne; discriminate).
  assert (H2 : ({[ EXIT_CSV := [["a"; "b"]; ["1"; "2"]] ]}
                  : gmap string csv_lines) !! EXIT_CSV
               = Some [["a"; "b"]; ["1"; "2"]])
    by apply lookup_singleton_eq.
  split; split; try assumption.
  - exact (proj1 (save_to_csv_creates_or_appends repr_whole
                    [("c", VStr "x")] TASK_CSV _) H1).
  - exact (proj1 (proj2 (save_to_csv_creates_or_appends repr_whole
                           [("c", VStr "x")] EXIT_CSV _)) _ H2).
Defined.

(** C7, on the empty file system. *)
Lemma load_from_csv_missing_example :
  (∅ : gmap string csv_lines) !! CONSENT_CSV = None /\
  load_from_csv reject_irregular CONSENT_CSV ∅ = Ok empty_frame.
Proof.
  assert (H : (∅ : gmap string csv_lines) !! CONSENT_CSV = None)
    by apply lookup_empty.
  split; [exact H|].
  exact (proj1 (load_from_csv_missing reject_irregular CONSENT_CSV ∅ H)).
Defined.

(** C3, with [start_time] set, with it absent, and in a run of the script. *)
Lemma stop_timer_records_and_keeps_start_time_example :
  let running : gmap string Q := {[ "start_time" := 100%Q ]} in
  (running !! "start_time" = Some 100%Q /\
   (stop_timer 130 running).1 !! "task_duration" = Some (130 - 100)%Q /\
   (stop_timer 130 running).1 !! "start_time" = Some 100%Q) /\
  ((∅ : gmap string Q) !! "start_time" = None /\
   stop_timer 130 ∅ = (∅, [])) /\
  (only_stop_pressed stop_click /\
   input_tabs repr_whole stop_click sample_clock (mkState ∅ running)
   = (mkState ∅ (stop_timer 130 running).1, (stop_timer 130 running).2)).
Proof.
  cbv zeta.
  assert (H1 : ({[ "start_time" := 100%Q ]} : gmap string Q) !! "start_time"
               = Some 100%Q) by apply lookup_singleton_eq.
  assert (H2 : (∅ : gmap string Q) !! "start_time" = None)
    by apply lookup_empty.
  assert (H3 : only_stop_pressed stop_click) by (repeat split).
  split; [|split]; split; try assumption.
  - exact (proj2 (proj1 (stop_timer_records_and_keeps_start_time repr_whole
                           130 _) _ H1)).
  - exact (proj1 (proj2 (stop_timer_records_and_keeps_start_time repr_whole
                           130 ∅)) H2).
  - exact (proj2 (proj2 (stop_timer_records_and_keeps_start_time repr_whole
                           130 {[ "start_time" := 100%Q ]}))
             stop_click sample_clock
             (mkState ∅ {[ "start_time" := 100%Q ]}) H3 eq_refl eq_refl).
Defined.

(** C3 as it was stated fails: after Stop, [start_time] is still set, and a
    second Stop measures again from it. *)
Lemma stop_leaves_the_timer_running :
  (stop_timer 130 (start_timer 100 ∅)).1 !! "start_time" = Some 100%Q /\
  (stop_timer 150 (stop_timer 130 (start_timer 100 ∅)).1).2
  = [DurationRecorded (150 - 100)].
Proof. split; vm_compute; reflexivity. Qed.

(** C8, with the clock moving forward. *)
Lemma elapsed_has_the_sign_of_the_clock_difference_example :
  (100 <= 130)%Q /\ (0 <= 130 - 100)%Q.
Proof.
  assert (H : (100 <= 130)%Q) by (unfold Qle; cbn; lia).
  split; [exact H|].
  exact (proj1 (proj2 (elapsed_has_the_sign_of_the_clock_difference
                         100 130 ∅)) H).
Defined.

(** C8 as it was stated fails: the wall clock set back thirty seconds between
    Start and Stop gives a negative duration. *)
Lemma elapsed_is_negative_when_the_clock_goes_back :
  (stop_timer 100 (start_timer 130 ∅)).1 !! "task_duration"
  = Some (100 - 130)%Q /\
  (100 - 130 < 0)%Q.
Proof. split; [vm_compute; reflexivity|unfold Qlt; cbn; lia]. Qed.

(** C9, with a stored duration of zero. *)
Lemma zero_or_missing_duration_is_saved_empty_example :
  let st := mkState ∅ {[ "task_duration" := 0%Q ]} in
  (session_state st !! "task_duration" = None \/
   (exists d, session_state st !! "task_duration" = Some d /\ (d == 0)%Q)) /\
  files (save_task_results repr_whole save_click sample_clock st).1 !! TASK_CSV
  = Some [ ["timestamp"; "task_name"; "success"; "duration_seconds"; "notes"];
           ["2024-05-01 10:02:00"; "Task 1: Example Task"; "Yes"; ""; ""] ].
Proof.
  cbv zeta.
  assert (H : session_state (mkState ∅ {[ "task_duration" := 0%Q ]})
                !! "task_duration" = None \/
              (exists d,
                 session_state (mkState ∅ {[ "task_duration" := 0%Q ]})
                   !! "task_duration" = Some d /\ (d == 0)%Q)).
  { right. exists 0%Q. split; [apply lookup_singleton_eq|reflexivity]. }
  split; [exact H|].
  exact (proj1 (proj2 (zero_or_missing_duration_is_saved_empty repr_whole
                         save_click sample_clock _ H))
           (lookup_empty _)).
Defined.

(** C6, without and with the box ticked. *)
Lemma consent_is_saved_only_when_affirmed_example :
  let st := mkState ∅ ∅ in
  (only_consent_submitted (consent_click false) /\
   input_tabs repr_whole (consent_click false) sample_clock st
   = (st, [ConsentWarning])) /\
  (only_consent_submitted (consent_click true) /\
   files (input_tabs repr_whole (consent_click true) sample_clock st).1
     !! CONSENT_CSV
   = Some [ ["timestamp"; "consent_given"]; ["2024-05-01 10:00:00"; "True"] ]).
Proof.
  cbv zeta.
  assert (H1 : only_consent_submitted (consent_click false))
    by (repeat split).
  assert (H2 : only_consent_submitted (consent_click true))
    by (repeat split).
  split; split; try assumption.
  - exact (proj1 (consent_is_saved_only_when_affirmed repr_whole
                    (consent_click false) sample_clock _ H1) eq_refl).
  - exact (proj1 (proj2 (proj2 (proj2
             (proj2 (consent_is_saved_only_when_affirmed repr_whole
                       (consent_click true) sample_clock (mkState ∅ ∅) H2)
                eq_refl))))
             (lookup_empty _)).
Defined.

(** C5 and C10, at the two Exit submissions 3, 2 and 5, 4. *)

Lemma two_exit_submissions_in_range :
  Forall (fun wc : widgets * clock => widgets_in_range wc.1)
    two_exit_submissions.
Proof. repeat constructor; cbn; lia. Defined.

Lemma report_averages_are_the_means_example :
  no_dataset_yet (files (mkState ∅ ∅)) /\
  Forall (fun wc : widgets * clock => widgets_in_range wc.1)
    two_exit_submissions /\
  exists r,
    report_tab reject_irregular reject_other
      (files (session repr_whole two_exit_submissions (mkState ∅ ∅))) = Ok r /\
    averages r = Some (Some (mean_of [3; 5]%Z), Some (mean_of [2; 4]%Z)) /\
    (mean_of [3; 5]%Z == 4)%Q /\ (mean_of [2; 4]%Z == 3)%Q.
Proof.
  assert (H0 : no_dataset_yet (files (mkState ∅ ∅)))
    by (repeat split; apply lookup_empty).
  split; [exact H0|]. split; [exact two_exit_submissions_in_range|].
  destruct (report_averages_are_the_means repr_whole reject_irregular
              reject_other _ _ H0 two_exit_submissions_in_range)
    as ((r & Hr & Ha) & _ & _ & M1 & M2).
  exists r. repeat split; assumption.
Defined.

Lemma exit_scores_and_means_are_between_1_and_5_example :
  files (mkState ∅ ∅) !! EXIT_CSV = None /\
  Forall (fun wc : widgets * clock => widgets_in_range wc.1)
    two_exit_submissions /\
  files (session repr_whole two_exit_submissions (mkState ∅ ∅)) !! EXIT_CSV
  = Some [ exit_header;
           ["2024-05-01 10:03:00"; "3"; "2"; ""];
           ["2024-05-01 10:03:00"; "5"; "4"; "fine"] ].
Proof.
  assert (H0 : files (mkState ∅ ∅) !! EXIT_CSV = None) by apply lookup_empty.
  split; [exact H0|]. split; [exact two_exit_submissions_in_range|].
  exact (proj1 (exit_scores_and_means_are_between_1_and_5 repr_whole
                  reject_irregular reject_other _ _ H0
                  two_exit_submissions_in_range)).
Defined.

(** X1, with the consent box ticked, the fields filled and the sliders
    moved, but nothing pressed. *)
Lemma widgets_alone_save_nothing_example :
  nothing_pressed slider_moved /\
  main repr_whole reject_irregular reject_other slider_moved sample_clock
    (mkState ∅ ∅)
  = (mkState ∅ ∅, [],
     report_tab reject_irregular reject_other (files (mkState ∅ ∅))).
Proof.
  assert (H : nothing_pressed slider_moved) by (repeat split).
  split; [exact H|].
  exact (widgets_alone_save_nothing repr_whole reject_irregular reject_other
           slider_moved sample_clock (mkState ∅ ∅) H).
Defined.

(** X2, over two Exit submissions, on an Exit file and on a file of the
    user's. *)
Lemma session_only_appends_example :
  let fs : gmap string csv_lines :=
    {[ EXIT_CSV := [exit_header; ["2024-04-30 09:00:00"; "4"; "4"; "ok"]] ]} in
  (fs !! EXIT_CSV = Some [exit_header; ["2024-04-30 09:00:00"; "4"; "4"; "ok"]] /\
   exists extra,
     files (session repr_whole two_exit_submissions (mkState fs ∅)) !! EXIT_CSV
     = Some ([exit_header; ["2024-04-30 09:00:00"; "4"; "4"; "ok"]] ++ extra)) /\
  ("data/notes.txt" <> CONSENT_CSV /\ "data/notes.txt" <> DEMOGRAPHIC_CSV /\
   "data/notes.txt" <> TASK_CSV /\ "data/notes.txt" <> EXIT_CSV /\
   files (session repr_whole two_exit_submissions (mkState fs ∅))
     !! "data/notes.txt" = fs !! "data/notes.txt").
Proof.
  cbv zeta.
  assert (H : ({[ EXIT_CSV := [exit_header;
                               ["2024-04-30 09:00:00"; "4"; "4"; "ok"]] ]}
                 : gmap string csv_lines) !! EXIT_CSV
              = Some [exit_header; ["2024-04-30 09:00:00"; "4"; "4"; "ok"]])
    by apply lookup_singleton_eq.
  split.
  - split; [exact H|].
    exact (proj1 (session_only_appends repr_whole two_exit_submissions
                    (mkState _ ∅) EXIT_CSV) _ H).
  - assert (N1 : "data/notes.txt" <> CONSENT_CSV) by discriminate.
    assert (N2 : "data/notes.txt" <> DEMOGRAPHIC_CSV) by discriminate.
    assert (N3 : "data/notes.txt" <> TASK_CSV) by discriminate.
    assert (N4 : "data/notes.txt" <> EXIT_CSV) by discriminate.
    repeat (split; [assumption|]).
    exact (proj2 (session_only_appends repr_whole two_exit_submissions
                    (mkState _ ∅) "data/notes.txt") N1 N2 N3 N4).
Defined.

(** X3, from the empty session state, over Start, Stop and Start again. *)
Lemma session_state_stays_consistent_example :
  timer_consistent (session_state (mkState ∅ ∅)) /\
  timer_consistent
    (session_state
       (session repr_whole
          [ (start_click, sample_clock); (stop_click, sample_clock);
            (start_click, sample_clock) ] (mkState ∅ ∅))).
Proof.
  assert (H : timer_consistent (session_state (mkState ∅ ∅))).
  { split.
    - intros k [x Hx]. cbn in Hx. rewrite lookup_empty in Hx. discriminate.
    - intros [x Hx]. cbn in Hx. rewrite lookup_empty in Hx. discriminate. }
  split; [exact H|].
  exact (proj1 (session_state_stays_consistent repr_whole _ _ H)).
Defined.

(** X4, with two cycles of thirty and of twelve seconds. *)
Lemma most_recent_cycle_wins_example :
  ~ (212 - 200 == 0)%Q /\
  duration_field
    (stop_timer 212 (start_timer 200 (stop_timer 130 (start_timer 100 ∅)).1)).1
  = VFloat (212 - 200).
Proof.
  assert (H : ~ (212 - 200 == 0)%Q) by discriminate.
  split; [exact H|].
  exact (proj1 (proj2 (proj2 (most_recent_cycle_wins 100 130 200 212 ∅))) H).
Defined.

(** X5, with a first cycle of thirty seconds and a restart. *)
Lemma restart_keeps_the_previous_duration_example :
  ~ (130 - 100 == 0)%Q /\
  to_csv_row repr_whole
    (task_record "2024-05-01 10:02:00" "Task 1: Example Task" "Yes" ""
       (start_timer 200 (stop_timer 130 (start_timer 100 ∅)).1))
  = ["2024-05-01 10:02:00"; "Task 1: Example Task"; "Yes"; "30.0"; ""].
Proof.
  assert (H : ~ (130 - 100 == 0)%Q) by discriminate.
  split; [exact H|].
  exact (proj2 (proj2 (restart_keeps_the_previous_duration repr_whole
                         100 130 200 ∅)) H _ _ _ _).
Defined.

(** X6, with a Stop pressed after a Save. *)
Lemma save_leaves_the_timer_idle_example :
  let st := mkState ∅ {[ "start_time" := 100%Q ]} in
  only_stop_pressed stop_click /\
  input_tabs repr_whole stop_click sample_clock
    (save_task_results repr_whole save_click sample_clock st).1
  = ((save_task_results repr_whole save_click sample_clock st).1, []).
Proof.
  cbv zeta.
  assert (H : only_stop_pressed stop_click) by (repeat split).
  split; [exact H|].
  exact (proj1 (proj2 (save_leaves_the_timer_idle repr_whole save_click
                         sample_clock _)) stop_click sample_clock H).
Defined.


(** X8, with a record of one field added to the Consent file. *)
Lemma ragged_append_is_permanent_example :
  let fs : gmap string csv_lines :=
    {[ CONSENT_CSV := [consent_header; ["2024-05-01 10:00:00"; "True"]] ]} in
  let d := [("timestamp", VStr "2024-05-01 11:00:00")] in
  fs !! CONSENT_CSV = Some [consent_header; ["2024-05-01 10:00:00"; "True"]] /\
  length d <> length consent_header /\
  exists f,
    append_all repr_whole CONSENT_CSV
      [d; consent_record "2024-05-01 12:00:00" true] fs !! CONSENT_CSV
    = Some f /\
    regular f = false.
Proof.
  cbv zeta.
  assert (H1 : ({[ CONSENT_CSV := [consent_header;
                                   ["2024-05-01 10:00:00"; "True"]] ]}
                  : gmap string csv_lines) !! CONSENT_CSV
               = Some [consent_header; ["2024-05-01 10:00:00"; "True"]])
    by apply lookup_singleton_eq.
  assert (H2 : length [("timestamp", VStr "2024-05-01 11:00:00")]
               <> length consent_header) by discriminate.
  split; [exact H1|]. split; [exact H2|].
  destruct (ragged_append_is_permanent repr_whole reject_irregular
              _ [consent_record "2024-05-01 12:00:00" true] _ _ _ _ H1 H2)
    as (f & Hf & Hr & _).
  exists f. split; assumption.
Defined.




(** X11, on an Exit file written under other field names. *)
Lemma report_needs_the_satisfaction_column_example :
  let fs : gmap string csv_lines :=
    {[ EXIT_CSV := [["timestamp"; "score"]; ["2024-05-01 10:03:00"; "4"]] ]} in
  fs !! CONSENT_CSV = None /\ fs !! DEMOGRAPHIC_CSV = None /\
  fs !! TASK_CSV = None /\
  fs !! EXIT_CSV
  = Some [["timestamp"; "score"]; ["2024-05-01 10:03:00"; "4"]] /\
  regular [["timestamp"; "score"]; ["2024-05-01 10:03:00"; "4"]] = true /\
  index_of "satisfaction" ["timestamp"; "score"] = None /\
  report_tab reject_irregular reject_other fs = Raised KeyError.
Proof.
  cbv zeta.
  set (fs := ({[ EXIT_CSV := [["timestamp"; "score"];
                              ["2024-05-01 10:03:00"; "4"]] ]}
                : gmap string csv_lines)).
  assert (H1 : fs !! CONSENT_CSV = None)
    by (apply lookup_singleton_ne; discriminate).
  assert (H2 : fs !! DEMOGRAPHIC_CSV = None)
    by (apply lookup_singleton_ne; discriminate).
  assert (H3 : fs !! TASK_CSV = None)
    by (apply lookup_singleton_ne; discriminate).
  assert (H4 : fs !! EXIT_CSV
               = Some [["timestamp"; "score"]; ["2024-05-01 10:03:00"; "4"]])
    by apply lookup_singleton_eq.
  assert (H5 : regular [["timestamp"; "score"]; ["2024-05-01 10:03:00"; "4"]]
               = true) by reflexivity.
  assert (H6 : index_of "satisfaction" ["timestamp"; "score"] = None)
    by reflexivity.
  repeat (split; [assumption|]).
  exact (report_needs_the_satisfaction_column reject_irregular reject_other
           fs _ _ _ H1 H2 H3 H4 H5 H6).
Defined.

(** X12 and X13, over Start, Stop and Save, then Start and Stop again, on a
    clock that moves forward. *)

Lemma timed_session_monotone : clock_monotone 0 timed_session.
Proof. cbn. repeat split; unfold Qle; cbn; lia. Defined.

Lemma empty_timer_within : timer_within 0 (session_state (mkState ∅ ∅)).
Proof. split; intros x H; cbn in H; rewrite lookup_empty in H; discriminate. Defined.

Lemma no_negative_duration_under_a_monotone_clock_example :
  timer_within 0 (session_state (mkState ∅ ∅)) /\
  clock_monotone 0 timed_session /\
  session_state (session repr_whole timed_session (mkState ∅ ∅))
    !! "task_duration" = Some (212 - 200)%Q /\
  (0 <= 212 - 200)%Q.
Proof.
  split; [exact empty_timer_within|]. split; [exact timed_session_monotone|].
  assert (H : session_state (session repr_whole timed_session (mkState ∅ ∅))
                !! "task_duration" = Some (212 - 200)%Q)
    by (vm_compute; reflexivity).
  split; [exact H|].
  exact (no_negative_duration_under_a_monotone_clock repr_whole
           timed_session 0 (mkState ∅ ∅) empty_timer_within
           timed_session_monotone _ H).
Defined.

Lemma task_file_durations_under_a_monotone_clock_example :
  timer_within 0 (session_state (mkState ∅ ∅)) /\
  clock_monotone 0 timed_session /\
  files (mkState ∅ ∅) !! TASK_CSV = None /\
  (files (session repr_whole timed_session (mkState ∅ ∅)) !! TASK_CSV = None \/
   exists ls,
     files (session repr_whole timed_session (mkState ∅ ∅)) !! TASK_CSV
     = Some (task_header :: ls) /\
     Forall (duration_cell_ok repr_whole) ls).
Proof.
  assert (H : files (mkState ∅ ∅) !! TASK_CSV = None) by apply lookup_empty.
  split; [exact empty_timer_within|]. split; [exact timed_session_monotone|].
  split; [exact H|].
  exact (task_file_durations_under_a_monotone_clock repr_whole timed_session
           0 (mkState ∅ ∅) empty_timer_within timed_session_monotone
           (or_introl H)).
Defined.

(** X14, over a declined and an affirmed Consent submission. *)
Lemma consent_file_holds_only_affirmations_example :
  files (mkState ∅ ∅) !! CONSENT_CSV = None /\
  files (session repr_whole
           [ (consent_click false, sample_clock);
             (consent_click true, sample_clock) ] (mkState ∅ ∅)) !! CONSENT_CSV
  = Some [consent_header; ["2024-05-01 10:00:00"; "True"]].
Proof.
  assert (H : files (mkState ∅ ∅) !! CONSENT_CSV = None) by apply lookup_empty.
  split; [exact H|].
  exact (consent_file_holds_only_affirmations repr_whole (mkState ∅ ∅) _ H).
Defined.

(** X15, in a run where only the Exit form is submitted. *)
Lemma a_dataset_changes_only_on_its_own_form_example :
  let w := exit_submission 3 2 "" in
  let st := mkState ∅ {[ "start_time" := 100%Q ]} in
  (consent_accepted w = false /\ submitted w = false /\
   save_pressed w = false /\ start_pressed w = false /\
   stop_pressed w = false) /\
  files (input_tabs repr_whole w sample_clock st).1 !! CONSENT_CSV = None /\
  files (input_tabs repr_whole w sample_clock st).1 !! DEMOGRAPHIC_CSV = None /\
  files (input_tabs repr_whole w sample_clock st).1 !! TASK_CSV = None /\
  session_state (input_tabs repr_whole w sample_clock st).1
  = {[ "start_time" := 100%Q ]}.
Proof.
  cbv zeta.
  destruct (a_dataset_changes_only_on_its_own_form repr_whole
              (exit_submission 3 2 "") sample_clock
              (mkState ∅ {[ "start_time" := 100%Q ]}))
    as (Hc & Hd & Ht & _ & Hs).
  split; [repeat split|].
  split; [exact (Hc eq_refl)|]. split; [exact (Hd eq_refl)|].
  split; [exact (Ht eq_refl)|]. exact (Hs eq_refl eq_refl eq_refl).
Defined.
